(** * Verification of the ddisasm-based AFL++ integration (fuzzers/aflplusplus_ddisasm/fuzzer.py)

    The development is a shallow embedding of [fuzzer.py]:

    - [Sed] and [Wrapper]: the shell script returned by [create_assembler]
      and the meaning of the two [sed] substitutions it contains;
    - [Host]: the process environment table, the file system, the working
      directory and the child processes the script spawns, as an explicit
      world threaded through an exception monad;
    - [Fuzzer]: the functions of [fuzzer.py] over that world;
    - [Tools]: what is assumed of the external programs, and the events
      the statements speak of;
    - [Sample]: a concrete host on which the functions are run. *)

From Stdlib Require Import Ascii String List ZArith Lia Bool.
From stdpp Require Import base option list strings gmap.

(** ** Strings *)

Module Str.

Definition tab : ascii := Ascii.ascii_of_nat 9.
Definition lf : ascii := Ascii.ascii_of_nat 10.
Definition slash : ascii := "/"%char.

Fixpoint drop (n : nat) (s : string) : string :=
  match n, s with
  | S n', String _ s' => drop n' s'
  | _, _ => s
  end.

Fixpoint take (n : nat) (s : string) : string :=
  match n, s with
  | S n', String c s' => String c (take n' s')
  | _, _ => EmptyString
  end.

(** Python's [str.startswith]. *)
Fixpoint startswith (p s : string) : bool :=
  match p, s with
  | EmptyString, _ => true
  | String a p', String b s' => Ascii.eqb a b && startswith p' s'
  | String _ _, EmptyString => false
  end.

Fixpoint last_char (s : string) : option ascii :=
  match s with
  | EmptyString => None
  | String c EmptyString => Some c
  | String _ s' => last_char s'
  end.

Fixpoint mem (c : ascii) (s : string) : bool :=
  match s with
  | EmptyString => false
  | String a s' => Ascii.eqb a c || mem c s'
  end.

(** The segments of [s] between occurrences of [sep]: a text with [n]
    separators has [n + 1] segments (Python's [str.split(sep)]). *)
Fixpoint split (sep : ascii) (s : string) : list string :=
  match s with
  | EmptyString => [EmptyString]
  | String c s' =>
      if Ascii.eqb c sep then EmptyString :: split sep s'
      else match split sep s' with
           | seg :: segs => String c seg :: segs
           | [] => [String c EmptyString]
           end
  end.

(** Python's [sep.join(segs)]. *)
Fixpoint join (sep : ascii) (segs : list string) : string :=
  match segs with
  | [] => EmptyString
  | [seg] => seg
  | seg :: segs' => seg +:+ String sep (join sep segs')
  end.

(** Python's [' '.join(words)]. *)
Definition unwords (ws : list string) : string := join " "%char ws.

End Str.

(** ** The subset of GNU sed used by the wrapper script

    [sed 's/RE/REPL/' -i FILE] rewrites FILE line by line; on each line the
    longest match of the basic regular expression RE, if any, is replaced
    by REPL (no [g] flag: at most one replacement per line). The subset is
    that of expressions anchored at the start of the line. Texts are
    sequences of bytes. What [\s] matches depends on the locale of the
    process: the script sets none and inherits the one of its caller (in
    a UTF-8 locale [\s] also matches multi-byte whitespace such as
    U+2003), so the locale is a parameter of the model. *)

Module Sed.

(** One-character matchers of a basic regular expression. *)
Inductive atom : Type :=
| Lit (c : ascii)     (* an ordinary or backslash-escaped ASCII character *)
| Space.              (* \s: a whitespace character of the locale *)

(** The locale: [space_len s] is the number of bytes of the whitespace
    character that the text [s] begins with, and 0 when [s] begins with
    no whitespace character. *)
Record locale : Type := Locale { space_len : string → nat }.

(** The whitespace characters of ASCII: space, and tab to carriage
    return. *)
Definition ascii_space (c : ascii) : bool :=
  let n := Ascii.nat_of_ascii c in
  Nat.eqb n 32 || (Nat.leb 9 n && Nat.leb n 13).

(** The visible characters of ASCII. *)
Definition ascii_graphic (c : ascii) : bool :=
  let n := Ascii.nat_of_ascii c in
  Nat.leb 33 n && Nat.leb n 126.

(** What every locale has in common: a character lies within the text;
    the whitespace characters of ASCII are whitespace, of one byte; the
    visible characters of ASCII are not whitespace; and the whitespace
    character that a text begins with is recognised from its own bytes,
    whatever follows them. *)
Record locale_ok (L : locale) : Prop := LocaleOk {
  space_len_bound : ∀ s, space_len L s ≤ String.length s;
  space_len_ascii : ∀ c s, ascii_space c = true → space_len L (String c s) = 1;
  space_len_graphic : ∀ c s, ascii_graphic c = true → space_len L (String c s) = 0;
  space_len_prefix : ∀ s t, 0 < space_len L s → space_len L (s +:+ t) = space_len L s
}.

(** The C locale: the whitespace characters are those of ASCII. *)
Definition c_locale : locale :=
  Locale (λ s, match s with
               | String c _ => if ascii_space c then 1 else 0
               | EmptyString => 0
               end).

(** U+2003 EM SPACE and U+3000 IDEOGRAPHIC SPACE, in UTF-8. *)
Definition em_space : string :=
  String (Ascii.ascii_of_nat 226) (String (Ascii.ascii_of_nat 128)
    (String (Ascii.ascii_of_nat 131) EmptyString)).
Definition ideographic_space : string :=
  String (Ascii.ascii_of_nat 227) (String (Ascii.ascii_of_nat 128)
    (String (Ascii.ascii_of_nat 128) EmptyString)).

(** A locale with multi-byte whitespace, as a UTF-8 locale has: besides
    the whitespace of ASCII, the two characters above. *)
Definition wide_locale : locale :=
  Locale (λ s, match s with
               | String c _ =>
                   if ascii_space c then 1
                   else if Str.startswith em_space s
                           || Str.startswith ideographic_space s then 3
                   else 0
               | EmptyString => 0
               end).

(** The number of bytes of the character at the head of [s] that [a]
    matches, and 0 when [a] does not match there. *)
Definition atom_len (L : locale) (a : atom) (s : string) : nat :=
  match a with
  | Lit d =>
      match s with
      | String c _ => if Ascii.eqb d c then 1 else 0
      | EmptyString => 0
      end
  | Space => space_len L s
  end.

(** An atom with its repetition bounds: a plain atom is repeated exactly
    once, [a*] at least 0 times, [a\{m,\}] at least [m] times and
    [a\{m,n\}] between [m] and [n] times. *)
Record piece : Type := Piece { p_atom : atom; p_min : nat; p_max : option nat }.

(** An expression [^...] or [^...$]. *)
Record regex : Type := Regex { re_pieces : list piece; re_eol : bool }.

(** A substitution command [s/RE/REPL/]. *)
Record command : Type := Command { c_regex : regex; c_repl : string }.

(** *** Parsing the expression text *)

Definition digit_val (c : ascii) : option nat :=
  let n := Ascii.nat_of_ascii c in
  if Nat.leb 48 n && Nat.leb n 57 then Some (n - 48) else None.

(** Reads a decimal number; [None] when no digit is there. *)
Fixpoint parse_nat_from (acc : option nat) (s : string) : option nat * string :=
  match s with
  | String c s' =>
      match digit_val c with
      | Some d => parse_nat_from (Some (10 * default 0 acc + d)) s'
      | None => (acc, s)
      end
  | EmptyString => (acc, s)
  end.

(** The text after [\{]: [m\}], [m,\}] or [m,n\}]. *)
Definition parse_interval (s : string) : option (nat * option nat * string) :=
  match parse_nat_from None s with
  | (Some m, String "\" (String "}" rest)) => Some (m, Some m, rest)
  | (Some m, String "," s1) =>
      match parse_nat_from None s1 with
      | (hi, String "\" (String "}" rest)) => Some (m, hi, rest)
      | _ => None
      end
  | _ => None
  end.

(** A repetition operator following an atom, if any. *)
Definition parse_bounds (s : string) : option (nat * option nat * string) :=
  match s with
  | String "*" rest => Some (0, None, rest)
  | String "\" (String "{" rest) => parse_interval rest
  | _ => Some (1, Some 1, s)
  end.

(** The atom at the head of [s]. Constructs outside the supported subset
    (the unescaped dot, bracket expressions, groups, alternation,
    back-references, [\+], [\?], bytes outside ASCII) are refused. *)
Definition parse_atom (s : string) : option (atom * string) :=
  match s with
  | String "\" (String c rest) =>
      if Ascii.eqb c "s" then Some (Space, rest)
      else if Ascii.eqb c "t" then Some (Lit Str.tab, rest)
      else if Str.mem c ".*[]^$\/" then Some (Lit c, rest)
      else None
  | String c rest =>
      if Str.mem c "\[*." || Nat.leb 128 (Ascii.nat_of_ascii c) then None
      else Some (Lit c, rest)
  | EmptyString => None
  end.

Fixpoint parse_pieces (fuel : nat) (s : string) : option (list piece * bool) :=
  match fuel with
  | 0 => None
  | S fuel' =>
      match s with
      | EmptyString => Some ([], false)
      | String "$" EmptyString => Some ([], true)
      | _ =>
          '(a, s1) ← parse_atom s;
          '(lo, hi, s2) ← parse_bounds s1;
          '(ps, eol) ← parse_pieces fuel' s2;
          Some (Piece a lo hi :: ps, eol)
      end
  end.

(** An expression that does not begin with [^] is refused. *)
Definition parse_regex (s : string) : option regex :=
  match s with
  | String "^" body =>
      '(ps, eol) ← parse_pieces (S (String.length body)) body;
      Some (Regex ps eol)
  | _ => None
  end.

(** The replacement text: [\t] is a tab (GNU extension), another escaped
    character stands for itself; [&] and back-references are refused. *)
Fixpoint parse_repl (s : string) : option string :=
  match s with
  | EmptyString => Some EmptyString
  | String "\" (String c rest) =>
      if Ascii.eqb c "t" then String Str.tab <$> parse_repl rest
      else if Str.mem c "\/&." then String c <$> parse_repl rest
      else None
  | String c rest =>
      if Str.mem c "&\" then None else String c <$> parse_repl rest
  end.

(** Splits at the first [/] that is not escaped by a backslash. *)
Fixpoint until_delim (s : string) : option (string * string) :=
  match s with
  | EmptyString => None
  | String "/" rest => Some (EmptyString, rest)
  | String "\" (String c rest) =>
      '(a, b) ← until_delim rest; Some (String "\" (String c a), b)
  | String c rest =>
      '(a, b) ← until_delim rest; Some (String c a, b)
  end.

(** [s/RE/REPL/] with no flags. *)
Definition parse_command (s : string) : option command :=
  match s with
  | String "s" (String "/" s1) =>
      '(re_txt, s2) ← until_delim s1;
      '(repl_txt, flags) ← until_delim s2;
      if String.eqb flags EmptyString then
        re ← parse_regex re_txt;
        repl ← parse_repl repl_txt;
        Some (Command re repl)
      else None
  | _ => None
  end.

(** *** Matching *)

(** The numbers of bytes that 1, 2, 3, ... successive matches of [a] at
    the head of [s] take, [acc] bytes having been matched before. *)
Fixpoint offsets_from (L : locale) (a : atom) (fuel acc : nat) (s : string) : list nat :=
  match fuel with
  | 0 => []
  | S fuel' =>
      match atom_len L a s with
      | 0 => []
      | n => (acc + n) :: offsets_from L a fuel' (acc + n) (Str.drop n s)
      end
  end.

(** The number of bytes of the longest run of successive matches of [a]
    at the head of [s]. *)
Fixpoint run (L : locale) (a : atom) (fuel : nat) (s : string) : nat :=
  match fuel with
  | 0 => 0
  | S fuel' =>
      match atom_len L a s with
      | 0 => 0
      | n => n + run L a fuel' (Str.drop n s)
      end
  end.

Definition span (L : locale) (a : atom) (s : string) : nat :=
  run L a (String.length s) s.

Definition omax (x y : option nat) : option nat :=
  match x, y with
  | Some a, Some b => Some (Nat.max a b)
  | Some a, None => Some a
  | None, _ => y
  end.

(** The numbers of bytes that the admissible numbers of repetitions of
    the piece [p] take at the head of [s]. *)
Definition candidates (L : locale) (p : piece) (s : string) : list nat :=
  let all := 0 :: offsets_from L (p_atom p) (String.length s) 0 s in
  drop (p_min p)
       (match p_max p with
        | Some m => take (S m) all
        | None => all
        end).

(** Length in bytes of the longest match of the pieces [ps] at the head
    of [s] (POSIX longest match: every admissible repetition count is
    tried). *)
Fixpoint match_pieces (L : locale) (ps : list piece) (eol : bool) (s : string)
    : option nat :=
  match ps with
  | [] =>
      if eol then (if String.eqb s EmptyString then Some 0 else None) else Some 0
  | p :: ps' =>
      foldr omax None
        ((λ k, Nat.add k <$> match_pieces L ps' eol (Str.drop k s))
           <$> candidates L p s)
  end.

(** Length of the match that [s///] replaces at the start of [line]. *)
Definition find_match (L : locale) (re : regex) (line : string) : option nat :=
  match_pieces L (re_pieces re) (re_eol re) line.

(** The effect of one substitution command on one line. *)
Definition subst_line (L : locale) (c : command) (line : string) : string :=
  match find_match L (c_regex c) line with
  | Some n => c_repl c +:+ Str.drop n line
  | None => line
  end.

(** The lines of a text file: the segments between line feeds, except
    that the empty segment after a final line feed (or of an empty file)
    is no line. *)
Fixpoint map_lines (f : string → string) (segs : list string) : list string :=
  match segs with
  | [] => []
  | [seg] => if String.eqb seg EmptyString then [seg] else [f seg]
  | seg :: segs' => f seg :: map_lines f segs'
  end.

Fixpoint drop_final_empty (segs : list string) : list string :=
  match segs with
  | [] => []
  | [seg] => if String.eqb seg EmptyString then [] else [seg]
  | seg :: segs' => seg :: drop_final_empty segs'
  end.

Definition file_lines (text : string) : list string :=
  drop_final_empty (Str.split Str.lf text).

(** [sed 's/RE/REPL/' -i FILE] on the content of FILE. *)
Definition sed_inplace (L : locale) (c : command) (text : string) : string :=
  Str.join Str.lf (map_lines (subst_line L c) (Str.split Str.lf text)).

End Sed.

(** ** The assembler wrapper script *)

Module Wrapper.

(** The text returned by [create_assembler]. The Python literal is not a
    raw string: its [\\t], [\\{] and [\\}] are the two characters [\t],
    [\{] and [\}] of the script, while [\.] and [\s] are no Python escapes
    and stay as they are. *)
Definition create_assembler : string :=
"#!/bin/bash
set -ex

SOURCE=$3

# Add tab before .text and substitute space indentation for tabs to allow instrumentation
sed 's/^\.text$/\t.text/' -i $SOURCE
sed 's/^\s\{1,\}/\t/' -i $SOURCE


AFL_AS_FORCE_INSTRUMENT=1 AFL_KEEP_ASSEMBLY=1 /src/afl/afl-gcc $@
".

Definition quote : ascii := Ascii.ascii_of_nat 39.

(** The expression of a script line of the form [sed 'EXPR' -i $SOURCE]. *)
Definition sed_expr_of_line (l : string) : option string :=
  if Str.startswith "sed " l then
    match Str.split quote l with
    | [_; expr; rest] =>
        if String.eqb rest " -i $SOURCE" then Some expr else None
    | _ => None
    end
  else None.

(** The substitution commands the script runs on [$SOURCE], in script
    order. *)
Definition sed_commands : list Sed.command :=
  omap (λ l, sed_expr_of_line l ≫= Sed.parse_command)
       (Str.split Str.lf create_assembler).

(** The content of the assembly file [$SOURCE] after the script's
    rewriting steps, from its content before. *)
Definition rewrite_file (L : Sed.locale) (text : string) : string :=
  foldl (λ t c, Sed.sed_inplace L c t) text sed_commands.

(** The same on a single line. *)
Definition rewrite_line (L : Sed.locale) (line : string) : string :=
  foldl (λ l c, Sed.subst_line L c l) line sed_commands.

Definition dot_text : string := ".text".
Definition tab_dot_text : string := String Str.tab ".text".

(** The pieces matching the characters of [s] one after the other. *)
Fixpoint literal (s : string) : list Sed.piece :=
  match s with
  | EmptyString => []
  | String c s' => Sed.Piece (Sed.Lit c) 1 (Some 1) :: literal s'
  end.

(** [s/^\.text$/\t.text/] *)
Definition cmd_text : Sed.command :=
  Sed.Command (Sed.Regex (literal dot_text) true) tab_dot_text.

(** [s/^\s\{1,\}/\t/] *)
Definition cmd_indent : Sed.command :=
  Sed.Command (Sed.Regex [Sed.Piece Sed.Space 1 None] false)
              (String Str.tab EmptyString).

(** Whether [s] begins with a whitespace character of the locale. *)
Definition begins_with_space (L : Sed.locale) (s : string) : bool :=
  negb (Nat.eqb (Sed.space_len L s) 0).

(** Whether [s] is a sequence of whitespace characters of the locale and
    nothing else. *)
Fixpoint spaces (L : Sed.locale) (fuel : nat) (s : string) : bool :=
  match s with
  | EmptyString => true
  | String _ _ =>
      match fuel with
      | 0 => false
      | S fuel' =>
          match Sed.space_len L s with
          | 0 => false
          | n => spaces L fuel' (Str.drop n s)
          end
      end
  end.

Definition all_space (L : Sed.locale) (s : string) : bool :=
  spaces L (String.length s) s.

End Wrapper.


(** ** The process and its surroundings

    What [fuzzer.py] acts on: the environment table [os.environ], the
    regular files of the file system with their permission bits, the
    working directory, and a record of the requests the process has made.
    Paths are compared as strings: there is no normalisation and there are
    no links. *)

Module Host.

Record file : Type := File { f_data : string; f_mode : N }.

Inductive event : Type :=
| Exec (argv : list string) (env : gmap string string) (status : option Z)
    (* a child process requested through [subprocess], with its exit
       status, or [None] when it could not be started *)
| Wrote (path : string)
| Chmod (path : string) (mode : N)
| Copied (src dst : string).

Record world : Type := World {
  environ : gmap string string;
  files : gmap string file;
  cwd : string;
  trace : list event          (* oldest first *)
}.

Definition with_environ (e : gmap string string) (w : world) : world :=
  World e (files w) (cwd w) (trace w).
Definition with_files (fs : gmap string file) (w : world) : world :=
  World (environ w) fs (cwd w) (trace w).
Definition log (ev : event) (w : world) : world :=
  World (environ w) (files w) (cwd w) (trace w ++ [ev]).

(** What lies outside the script: the programs it runs, which paths are
    directories, where files may be written, and the permission bits a
    newly created file gets. [exec argv env cwd fs] is [None] when the
    program cannot be started, and otherwise the exit status of the child
    and the files it leaves behind. *)
Record host : Type := MkHost {
  exec : list string → gmap string string → string → gmap string file
         → option (Z * gmap string file);
  isdir : string → bool;
  writable : string → bool;
  create_mode : N
}.

Inductive exn : Type :=
| KeyError (key : string)
| TypeError
| OSError (path : string)
| CalledProcessError (returncode : Z) (cmd : list string).

Inductive result (A : Type) : Type :=
| Ok (a : A) (w : world)
| Raise (e : exn) (w : world).
Global Arguments Ok {A} a w.
Global Arguments Raise {A} e w.

(** The world a computation ends in, whether it returns or raises. *)
Definition world_of {A} (r : result A) : world :=
  match r with Ok _ w | Raise _ w => w end.

(** The events a computation started in [w] has added to the record. *)
Definition events_of {A} (w : world) (r : result A) : list event :=
  drop (length (trace w)) (trace (world_of r)).

(** Computations over the world that may raise. *)
Definition M (A : Type) : Type := world → result A.

Global Instance M_ret : MRet M := λ A a w, Ok a w.
Global Instance M_bind : MBind M := λ A B k m w,
  match m w with
  | Ok a w' => k a w'
  | Raise e w' => Raise e w'
  end.
Definition raise {A} (e : exn) : M A := λ w, Raise e w.

(** *** Paths *)

(** [os.path.join a b] *)
Definition path_join (a b : string) : string :=
  if Str.startswith "/" b then b
  else if String.eqb a EmptyString then b
  else if decide (Str.last_char a = Some Str.slash) then a +:+ b
  else a +:+ "/" +:+ b.

(** [os.path.basename p] *)
Definition basename (p : string) : string :=
  List.last (Str.split Str.slash p) EmptyString.

(** The absolute path a path stands for in working directory [wd]. *)
Definition resolve (wd p : string) : string := path_join wd p.

(** The name under which the file at path [p] shows in the listing of
    the directory whose path with a final slash is [prefix]. *)
Definition entry_name (prefix p : string) : option string :=
  if Str.startswith prefix p then
    match Str.split Str.slash (Str.drop (String.length prefix) p) with
    | name :: _ => if String.eqb name EmptyString then None else Some name
    | [] => None
    end
  else None.

(** [os.listdir d], for an absolute [d]. *)
Definition listdir (fs : gmap string file) (d : string) : gset string :=
  set_omap (entry_name (path_join d EmptyString)) (dom fs).

(** *** The environment table *)

(** [os.getenv k] *)
Definition getenv (k : string) : M (option string) :=
  λ w, Ok (environ w !! k) w.

(** [os.environ[k]] *)
Definition environ_get (k : string) : M string :=
  λ w, match environ w !! k with
       | Some v => Ok v w
       | None => Raise (KeyError k) w
       end.

(** [os.environ[k] = v] *)
Definition environ_set (k v : string) : M unit :=
  λ w, Ok () (with_environ (<[k := v]> (environ w)) w).

(** [os.environ.copy()] *)
Definition environ_copy : M (gmap string string) :=
  λ w, Ok (environ w) w.

(** [a + b] for a string [b] and an [a] that is a string or [None]. *)
Definition opt_add (a : option string) (b : string) : M string :=
  match a with
  | Some s => mret (s +:+ b)
  | None => raise TypeError
  end.

(** [a + b] for a string [a] and a [b] that is a string or [None]. *)
Definition add_opt (a : string) (b : option string) : M string :=
  match b with
  | Some s => mret (a +:+ s)
  | None => raise TypeError
  end.

(** *** Files *)

(** [with open(path, mode='w') as file: file.write(text)] *)
Definition write_file (h : host) (path text : string) : M unit :=
  λ w,
    let p := resolve (cwd w) path in
    if writable h p then
      let mode := match files w !! p with
                  | Some f => f_mode f
                  | None => create_mode h
                  end in
      Ok () (log (Wrote p) (with_files (<[p := File text mode]> (files w)) w))
    else Raise (OSError p) w.

(** [os.chmod(path, mode)] *)
Definition chmod (path : string) (mode : N) : M unit :=
  λ w,
    let p := resolve (cwd w) path in
    match files w !! p with
    | Some f =>
        Ok () (log (Chmod p mode)
                   (with_files (<[p := File (f_data f) mode]> (files w)) w))
    | None => Raise (OSError p) w
    end.

(** [shutil.copy(src, dst)]: the content and the permission bits of
    [src] go to [dst], or into [dst] under the base name of [src] when
    [dst] is a directory. *)
Definition copy (h : host) (src dst : string) : M unit :=
  λ w,
    let s := resolve (cwd w) src in
    let d0 := resolve (cwd w) dst in
    let d := if isdir h d0 then path_join d0 (basename s) else d0 in
    match files w !! s with
    | None => Raise (OSError s) w
    | Some f =>
        if String.eqb s d then Raise (OSError d) w
        else if writable h d then
          Ok () (log (Copied s d) (with_files (<[d := f]> (files w)) w))
        else Raise (OSError d) w
    end.

(** *** Child processes *)

(** Runs [argv] as a child with environment [env] and waits for it:
    the exit status, or [OSError] when the program cannot be started. *)
Definition spawn (h : host) (argv : list string) (env : gmap string string) : M Z :=
  λ w,
    match exec h argv env (cwd w) (files w) with
    | Some (code, fs) => Ok code (log (Exec argv env (Some code)) (with_files fs w))
    | None => Raise (OSError (List.hd EmptyString argv)) (log (Exec argv env None) w)
    end.

(** [subprocess.call(argv)] *)
Definition call (h : host) (argv : list string) : M Z :=
  env ← environ_copy; spawn h argv env.

(** [subprocess.check_call(argv, env=env)] *)
Definition check_call (h : host) (argv : list string) (env : gmap string string) : M unit :=
  code ← spawn h argv env;
  if decide (code = 0%Z) then mret () else raise (CalledProcessError code argv).

(** [subprocess.run(argv, check=True)] *)
Definition run_check (h : host) (argv : list string) : M unit :=
  env ← environ_copy; check_call h argv env.

End Host.

(** ** fuzzer.py *)

Module Fuzzer.
Import Host.

(** What [fuzzer.py] takes from [fuzzers.utils]. *)
Record utils : Type := Utils {
  NO_SANITIZER_COMPAT_CFLAGS : list string;
  LIBCPLUSPLUS_FLAG : string;
  create_seed_file_for_empty_corpus : string → M unit
}.

(** Modelled from the spec: [utils.create_seed_file_for_empty_corpus],
    whose source is not part of [fuzzer.py]. The spec has it ensure that
    the input-corpus directory contains at least one non-empty file,
    synthesizing a minimal placeholder seed if the directory is empty;
    the name and the content of the placeholder are left open. *)
Definition spec_create_seed_file (h : host) (seed_name seed_data : string)
    (input_corpus : string) : M unit :=
  λ w,
    let d := resolve (cwd w) input_corpus in
    if decide (listdir (files w) d = ∅) then
      let p := path_join d seed_name in
      Ok () (log (Wrote p)
                 (with_files (<[p := File seed_data (create_mode h)]> (files w)) w))
    else Ok () w.

Section functions.
Variable h : host.
Variable u : utils.

Definition build_uninstrumented_benchmark : M unit :=
  environ_set "CC" "clang";;
  environ_set "CXX" "clang++";;
  environ_set "CFLAGS" (Str.unwords (NO_SANITIZER_COMPAT_CFLAGS u));;
  let cxxflags := [LIBCPLUSPLUS_FLAG u] ++ NO_SANITIZER_COMPAT_CFLAGS u in
  environ_set "CXXFLAGS" (Str.unwords cxxflags);;
  environ_set "FUZZER_LIB" "/libStandaloneFuzzTarget.a";;
  let fuzzing_engine_path := "/usr/lib/libFuzzingEngine.a" in
  fuzzer_lib ← environ_get "FUZZER_LIB";
  copy h fuzzer_lib fuzzing_engine_path;;
  env ← environ_copy;
  src ← environ_get "SRC";
  let build_script := path_join src "build.sh" in
  check_call h ["/bin/bash"; "-ex"; build_script] env.

Definition instrument_binary : M unit :=
  target_binary ← getenv "FUZZ_TARGET";
  target_gtirb ← opt_add target_binary ".gtirb";
  instrumented_binary ← opt_add target_binary ".dafl";
  out ← environ_get "OUT";
  binary ← add_opt (out +:+ "/") target_binary;
  run_check h ["ddisasm"; binary; "--ir"; target_gtirb];;
  let assembler := "/src/fuzzers/aflplusplus_ddisasm/assemble.sh" in
  write_file h assembler Wrapper.create_assembler;;
  chmod assembler 511 (* 0o777 *);;
  out ← environ_get "OUT";
  run_check h ["gtirb-pprinter"; target_gtirb; "--syntax"; "att"; "--binary";
               (out +:+ "/") +:+ instrumented_binary; "--use-gcc"; assembler].

Definition build : M unit :=
  build_uninstrumented_benchmark;;
  instrument_binary;;
  out ← environ_get "OUT";
  copy h "/src/afl/afl-fuzz" out.

Definition prepare_fuzz_environment (input_corpus : string) : M unit :=
  environ_set "AFL_NO_UI" "1";;
  environ_set "AFL_SKIP_CPUFREQ" "1";;
  environ_set "AFL_NO_AFFINITY" "1";;
  environ_set "AFL_I_DONT_CARE_ABOUT_MISSING_CRASHES" "1";;
  environ_set "AFL_SKIP_CRASHES" "1";;
  environ_set "AFL_SHUFFLE_QUEUE" "1";;
  create_seed_file_for_empty_corpus u input_corpus.

Definition fuzz (input_corpus output_corpus target_binary : string) : M unit :=
  prepare_fuzz_environment input_corpus;;
  let instrumented_binary := target_binary +:+ ".dafl" in
  call h ["./afl-fuzz"; "-i"; input_corpus; "-o"; output_corpus; "--";
          instrumented_binary; "@@"];;
  mret ().

End functions.

End Fuzzer.

(** ** The external tools

    The disassembler, the re-assembler and the fuzzing engine are programs
    outside [fuzzer.py]; what is assumed of them is what their command
    lines promise. *)

Module Tools.
Import Host.

Definition assembler : string := "/src/fuzzers/aflplusplus_ddisasm/assemble.sh".
Definition driver : string := "/src/afl/afl-fuzz".

Definition ddisasm_argv (binary ir : string) : list string :=
  ["ddisasm"; binary; "--ir"; ir].

Definition pprinter_argv (ir out asm : string) : list string :=
  ["gtirb-pprinter"; ir; "--syntax"; "att"; "--binary"; out; "--use-gcc"; asm].

Definition afl_fuzz_argv (input_corpus output_corpus binary : string) : list string :=
  ["./afl-fuzz"; "-i"; input_corpus; "-o"; output_corpus; "--"; binary; "@@"].

(** The wrapper script is in place, as [instrument_binary] leaves it. *)
Definition wrapper_in_place (fs : gmap string file) : Prop :=
  fs !! assembler = Some (File Wrapper.create_assembler 511).

(** What a run of [argv] that exits with status 0 does, started in a
    file system that satisfies [pre]: it leaves a file at [out], and of
    the other files those at the paths in [kept] are as they were. What
    the run does to any further file (scratch files, the assembly that
    [AFL_KEEP_ASSEMBLY=1] keeps) is left open. *)
Definition writes (h : host) (argv : list string) (out : string)
    (kept : string → Prop) (pre : gmap string file → Prop) : Prop :=
  ∀ env wd fs fs',
    pre fs →
    exec h argv env wd fs = Some (0%Z, fs') →
    is_Some (fs' !! resolve wd out)
    ∧ ∀ p, kept p → p ≠ resolve wd out → fs' !! p = fs !! p.

(** [ddisasm <binary> --ir <ir>] writes the IR file. *)
Definition ddisasm_contract (h : host) (binary ir : string)
    (kept : string → Prop) : Prop :=
  writes h (ddisasm_argv binary ir) ir kept (λ _, True).

(** [gtirb-pprinter <ir> --syntax att --binary <out> --use-gcc <wrapper>],
    the wrapper script being in place, writes the binary. *)
Definition pprinter_contract (h : host) (ir out : string)
    (kept : string → Prop) : Prop :=
  writes h (pprinter_argv ir out assembler) out kept wrapper_in_place.

(** The event of copying the engine driver somewhere. *)
Definition is_driver_copy (ev : event) : bool :=
  match ev with
  | Copied src _ => String.eqb src driver
  | _ => false
  end.

(** The event of requesting a run of program [prog]. *)
Definition runs (prog : string) (ev : event) : bool :=
  match ev with
  | Exec (p :: _) _ _ => String.eqb p prog
  | _ => false
  end.

(** The events that belong to the instrumentation pipeline. *)
Definition is_instrumentation_step (ev : event) : bool :=
  match ev with
  | Exec _ _ _ => runs "ddisasm" ev || runs "gtirb-pprinter" ev
  | Wrote p | Chmod p _ => String.eqb p assembler
  | Copied _ _ => false
  end.

Definition fuzzer_lib : string := "/libStandaloneFuzzTarget.a".
Definition build_argv (script : string) : list string :=
  ["/bin/bash"; "-ex"; script].

(** A name that a directory entry can have. *)
Definition valid_name (n : string) : Prop :=
  n ≠ EmptyString ∧ Str.mem Str.slash n = false.

End Tools.

(** ** A concrete host, for running the functions on examples *)

Module Sample.
Import Host.

(** Each tool exits with the status chosen for it and leaves its output
    file when that status is 0; the build script leaves the target binary
    at [$OUT/$FUZZ_TARGET]. *)
Definition sample_exec (build_st ddisasm_st pprinter_st fuzz_st : Z)
    (argv : list string) (env : gmap string string) (wd : string)
    (fs : gmap string file) : option (Z * gmap string file) :=
  match argv with
  | [] => None
  | prog :: args =>
      if String.eqb prog "/bin/bash" then
        Some (build_st,
              if decide (build_st = 0%Z) then
                match env !! "OUT", env !! "FUZZ_TARGET" with
                | Some o, Some t => <[(o +:+ "/") +:+ t := File "ELF" 493]> fs
                | _, _ => fs
                end
              else fs)
      else if String.eqb prog "ddisasm" then
        match args with
        | [_; _; ir] =>
            Some (ddisasm_st,
                  if decide (ddisasm_st = 0%Z)
                  then <[resolve wd ir := File "GTIRB" 420]> fs else fs)
        | _ => None
        end
      else if String.eqb prog "gtirb-pprinter" then
        match args with
        | [_; _; _; _; out; _; _] =>
            Some (pprinter_st,
                  if decide (pprinter_st = 0%Z)
                  then <[resolve wd out := File "ELF+AFL" 493]> fs else fs)
        | _ => None
        end
      else if String.eqb prog "./afl-fuzz" then Some (fuzz_st, fs)
      else None
  end.

Definition sample_host (build_st ddisasm_st pprinter_st fuzz_st : Z) : host :=
  MkHost (sample_exec build_st ddisasm_st pprinter_st fuzz_st)
         (λ p, String.eqb p "/out") (λ _, true) 420.

Definition sample_environ : gmap string string :=
  <["FUZZ_TARGET" := "sample"]> (<["OUT" := "/out"]> (<["SRC" := "/src"]> ∅)).

Definition sample_files : gmap string file :=
  <["/out/sample" := File "ELF" 493]>
    (<["/libStandaloneFuzzTarget.a" := File "AR" 420]>
       (<["/src/afl/afl-fuzz" := File "AFL" 493]> ∅)).

(** A build container after the target was built, seen from working
    directory [wd]. *)
Definition sample_world (wd : string) : world :=
  World sample_environ sample_files wd [].

(** The world after the instrumentation pipeline has run with tools
    that all succeed. *)
Definition instrumented (wd : string) : world :=
  world_of (Fuzzer.instrument_binary (sample_host 0 0 0 0) (sample_world wd)).

Definition sample_utils (h : host) : Fuzzer.utils :=
  Fuzzer.Utils ["-pthread"; "-Wl,--no-as-needed"] "-stdlib=libc++"
               (Fuzzer.spec_create_seed_file h "default_seed" "hi").

(** The worlds that the build ends in when every tool succeeds, when
    the build script exits with status 2, and when [ddisasm] exits with
    status 3. *)
Definition built : world :=
  world_of (Fuzzer.build (sample_host 0 0 0 0) (sample_utils (sample_host 0 0 0 0))
              (sample_world "/src")).
Definition build_script_failed : world :=
  world_of (Fuzzer.build_uninstrumented_benchmark (sample_host 2 0 0 0)
              (sample_utils (sample_host 2 0 0 0)) (sample_world "/src")).
Definition uninstrumented_built : world :=
  world_of (Fuzzer.build_uninstrumented_benchmark (sample_host 0 3 0 0)
              (sample_utils (sample_host 0 3 0 0)) (sample_world "/src")).
Definition ddisasm_failed : world :=
  world_of (Fuzzer.instrument_binary (sample_host 0 3 0 0) uninstrumented_built).

(** The fuzzing container: the world in which [fuzz] is called when
    [FUZZ_TARGET] is [v], and the world its preparation step leaves, the
    engine exiting with status [st]. *)
Definition fuzz_world (v : string) : world :=
  with_environ (<["FUZZ_TARGET" := v]> sample_environ) (sample_world "/out").
Definition prepared (st : Z) (v : string) : world :=
  world_of (Fuzzer.prepare_fuzz_environment (sample_utils (sample_host 0 0 0 st))
              "/corpus" (fuzz_world v)).

End Sample.

(** ** Shapes of assembly lines *)

Module Lines.

(** [s] without its leading whitespace. *)
Definition lstrip (L : Sed.locale) (s : string) : string :=
  Str.drop (Sed.span L Sed.Space s) s.

(** A line as the wrapper script wants it: not the bare [.text], and
    indented, if at all, by exactly one tab. *)
Definition normalised (L : Sed.locale) (l : string) : Prop :=
  l ≠ ".text"
  ∧ (Wrapper.begins_with_space L l = true →
     ∃ rest, l = String Str.tab rest ∧ Wrapper.begins_with_space L rest = false).

(** A line that the wrapper script has no reason to touch. *)
Definition plain (L : Sed.locale) (l : string) : Prop :=
  Wrapper.begins_with_space L l = false ∧ l ≠ ".text".

End Lines.

(** ** Variables and requests *)

Module Vars.
Import Host.

(** The variables that [build_uninstrumented_benchmark] assigns. *)
Definition build_variables : list string :=
  ["CC"; "CXX"; "CFLAGS"; "CXXFLAGS"; "FUZZER_LIB"].

(** The variables that [prepare_fuzz_environment] assigns. *)
Definition afl_variables : list string :=
  ["AFL_NO_UI"; "AFL_SKIP_CPUFREQ"; "AFL_NO_AFFINITY";
   "AFL_I_DONT_CARE_ABOUT_MISSING_CRASHES"; "AFL_SKIP_CRASHES";
   "AFL_SHUFFLE_QUEUE"].

(** The event of requesting a child process. *)
Definition is_exec (ev : event) : bool :=
  match ev with
  | Exec _ _ _ => true
  | _ => false
  end.

(** A helper that leaves the environment table as it finds it. *)
Definition keeps_environ (m : M unit) : Prop :=
  ∀ w, environ (world_of (m w)) = environ w.

End Vars.

(** ** More concrete worlds *)

Module Cases.
Import Host.

(** A container in which [OUT] is not set. *)
Definition no_out_world : world :=
  World (<["FUZZ_TARGET" := "sample"]> ∅) Sample.sample_files "/src" [].

(** A container in which [SRC] is not set. *)
Definition no_src_world : world :=
  World (<["FUZZ_TARGET" := "sample"]> (<["OUT" := "/out"]> ∅))
        Sample.sample_files "/src" [].

(** A host on which no program can be started. *)
Definition no_engine_host : host :=
  MkHost (λ _ _ _ _, None) (λ p, String.eqb p "/out") (λ _, true) 420.

(** A host whose [gtirb-pprinter], besides writing the binary, leaves
    behind the assembly that the wrapper script's [AFL_KEEP_ASSEMBLY=1]
    keeps. *)
Definition kept_assembly : string := "/tmp/.afl-1-1.s".
Definition scratch_exec (argv : list string) (env : gmap string string)
    (wd : string) (fs : gmap string file) : option (Z * gmap string file) :=
  match Sample.sample_exec 0 0 0 0 argv env wd fs with
  | Some (st, fs') =>
      match argv with
      | prog :: _ =>
          if String.eqb prog "gtirb-pprinter"
          then Some (st, <[kept_assembly := File "asm" 384]> fs')
          else Some (st, fs')
      | [] => Some (st, fs')
      end
  | None => None
  end.
Definition scratch_host : host :=
  MkHost scratch_exec (λ p, String.eqb p "/out") (λ _, true) 420.
Definition scratch_instrumented : world :=
  world_of (Fuzzer.instrument_binary scratch_host (Sample.sample_world "/src")).

(** An assembly file with space indentation and a bare [.text], and one
    that needs no rewriting. *)
Definition printed_asm : string :=
".text
    .globl main
main:
    ret
".
Definition plain_asm : string :=
"main:
nop
".

(** An assembly file indented with U+2003 as well as with spaces. *)
Definition wide_indent : string := "  " +:+ Sed.em_space.
Definition wide_asm : string :=
  wide_indent +:+ "nop
main:
" +:+ Sed.em_space +:+ "ret
".

End Cases.

(* ================================================================== *)
(** * Theorems *)

(** ** Facts about strings *)

Module StrFacts.
Import Str.

Lemma mem_app c (a b : string) : mem c (a +:+ b) = mem c a || mem c b.
Proof.
  induction a as [|x a IH]; simpl; [done|].
  rewrite IH. by rewrite orb_assoc.
Qed.

Lemma mem_take c n s : mem c s = false → mem c (take n s) = false.
Proof.
  revert s. induction n as [|n IH]; intros [|x s]; simpl; try done.
  intros [-> Hs]%orb_false_elim. simpl. by apply IH.
Qed.

Lemma mem_drop c n s : mem c s = false → mem c (drop n s) = false.
Proof.
  revert s. induction n as [|n IH]; intros [|x s]; simpl; try done.
  intros [_ Hs]%orb_false_elim. by apply IH.
Qed.

Lemma drop_app_length (a b : string) : drop (String.length a) (a +:+ b) = b.
Proof. induction a as [|x a IH]; simpl; [by destruct b|done]. Qed.

Lemma split_nonempty sep s : split sep s ≠ [].
Proof.
  destruct s as [|c s]; simpl; [done|].
  destruct (Ascii.eqb c sep); [done|]. by destruct (split sep s).
Qed.

Lemma split_no_sep sep s : Forall (λ seg, mem sep seg = false) (split sep s).
Proof.
  induction s as [|c s IH]; simpl.
  - by constructor.
  - destruct (Ascii.eqb c sep) eqn:E.
    + by constructor.
    + destruct (split sep s) as [|seg segs];
        constructor; simpl; rewrite ?E; simpl; try done.
      * by inversion IH.
      * by inversion IH.
Qed.

Lemma split_no_sep_id sep s : mem sep s = false → split sep s = [s].
Proof.
  induction s as [|c s IH]; simpl; [done|].
  intros [-> Hs]%orb_false_elim. by rewrite IH.
Qed.

Lemma split_app_sep sep a b :
  mem sep a = false → split sep (a +:+ String sep b) = a :: split sep b.
Proof.
  induction a as [|c a IH]; simpl.
  - intros _. by rewrite Ascii.eqb_refl.
  - intros [-> Ha]%orb_false_elim. by rewrite IH.
Qed.

(** Splitting undoes joining, for segments free of the separator. *)
Lemma split_join sep segs :
  segs ≠ [] → Forall (λ seg, mem sep seg = false) segs →
  split sep (join sep segs) = segs.
Proof.
  induction segs as [|seg segs IH]; [done|].
  intros _ Hall. inversion Hall as [|? ? Hseg Hrest]; subst.
  destruct segs as [|seg' segs].
  - simpl. by apply split_no_sep_id.
  - change (join sep (seg :: seg' :: segs))
      with (seg +:+ String sep (join sep (seg' :: segs))).
    rewrite split_app_sep by done. f_equal. by apply IH.
Qed.

Lemma last_char_app (a b : string) :
  b ≠ EmptyString → last_char (a +:+ b) = last_char b.
Proof.
  intros Hb. induction a as [|c a IH]; simpl; [done|].
  rewrite <- IH. destruct (a +:+ b) eqn:E; [|done].
  destruct a; simpl in E; [by subst|done].
Qed.

Lemma drop_length n s : String.length (drop n s) = String.length s - n.
Proof. revert s. induction n as [|n IH]; intros [|c s]; simpl; auto. Qed.

Lemma drop_drop n m s : drop (n + m) s = drop m (drop n s).
Proof.
  revert s. induction n as [|n IH]; intros [|c s]; simpl; auto.
  by destruct m.
Qed.

Lemma drop_app_le n (a b : string) :
  n ≤ String.length a → drop n (a +:+ b) = drop n a +:+ b.
Proof.
  revert a. induction n as [|n IH]; intros [|c a]; simpl; try done; try lia.
  intros Hn. apply IH. lia.
Qed.

Lemma startswith_prefix p s t :
  startswith p s = true → startswith p (s +:+ t) = true.
Proof.
  revert s. induction p as [|a p IH]; intros [|b s]; simpl; try done.
  intros [-> Hp]%andb_true_iff. simpl. by apply IH.
Qed.
End StrFacts.

(** ** Facts about the sed model *)

Module SedFacts.
Import Str Sed.

Lemma omax_None_r x : omax x None = x.
Proof. by destruct x. Qed.

(** A sequence of literal characters anchored at the end of the line
    matches exactly the line that consists of these characters, in every
    locale. *)
Lemma match_literal L cs s :
  match_pieces L (Wrapper.literal cs) true s
  = if String.eqb s cs then Some (String.length cs) else None.
Proof.
  revert s. induction cs as [|c cs IH]; intros s.
  - simpl. by destruct s.
  - destruct s as [|d s].
    + done.
    + cbn [Wrapper.literal match_pieces]. unfold candidates.
      cbn [p_atom p_min p_max offsets_from atom_len String.length].
      cbn [String.eqb]. rewrite (Ascii.eqb_sym d c).
      destruct (Ascii.eqb c d).
      * cbn [list.take list.drop fmap list_fmap foldr Nat.add].
        change (drop 1 (String d s)) with s. rewrite IH, omax_None_r.
        by destruct (String.eqb s cs).
      * done.
Qed.

(** The longest of the runs of 1, 2, 3, ... matches is the whole run. *)
Lemma offsets_longest L a fuel acc s :
  foldr omax None ((λ k, Some (k + 0)) <$> offsets_from L a fuel acc s)
  = match run L a fuel s with
    | 0 => None
    | S n => Some (acc + S n)
    end.
Proof.
  revert acc s. induction fuel as [|fuel IH]; intros acc s; [done|].
  cbn [offsets_from run]. destruct (atom_len L a s) as [|n]; [done|].
  rewrite fmap_cons. cbn [foldr]. rewrite IH.
  destruct (run L a fuel (drop (S n) s)) as [|m]; simpl; f_equal; lia.
Qed.

(** [\s\{1,\}] at the head of a line matches its whole leading run of
    whitespace, when there is one. *)
Lemma match_space_run L s :
  match_pieces L [Piece Space 1 None] false s
  = match span L Space s with 0 => None | S n => Some (S n) end.
Proof.
  cbn [match_pieces]. unfold candidates. cbn [p_atom p_min p_max list.drop].
  rewrite (list_fmap_ext _ (λ k, Some (k + 0)) _ (λ _ _ _, eq_refl)).
  rewrite drop_0, offsets_longest. unfold span.
  by destruct (run L Space (String.length s) s).
Qed.

(** How the first command of the script acts on a line. *)
Lemma subst_text L l :
  subst_line L Wrapper.cmd_text l
  = if String.eqb l Wrapper.dot_text then Wrapper.tab_dot_text else l.
Proof.
  unfold subst_line, find_match, Wrapper.cmd_text.
  cbn [c_regex c_repl re_pieces re_eol].
  rewrite match_literal.
  destruct (String.eqb l Wrapper.dot_text) eqn:E; [|done].
  apply String.eqb_eq in E. by subst l.
Qed.

(** How the second command of the script acts on a line. *)
Lemma subst_indent L l :
  subst_line L Wrapper.cmd_indent l
  = match span L Space l with
    | 0 => l
    | S n => String tab (drop (S n) l)
    end.
Proof.
  unfold subst_line, find_match, Wrapper.cmd_indent.
  cbn [c_regex c_repl re_pieces re_eol].
  rewrite match_space_run. by destruct (span L Space l).
Qed.

Lemma sed_commands_eq :
  Wrapper.sed_commands = [Wrapper.cmd_text; Wrapper.cmd_indent].
Proof. reflexivity. Qed.

Lemma rewrite_line_eq L l :
  Wrapper.rewrite_line L l
  = subst_line L Wrapper.cmd_indent (subst_line L Wrapper.cmd_text l).
Proof. unfold Wrapper.rewrite_line. by rewrite sed_commands_eq. Qed.

Lemma tab_no_lf : Ascii.eqb tab lf = false.
Proof. reflexivity. Qed.

Lemma subst_text_no_lf L l :
  mem lf l = false → mem lf (subst_line L Wrapper.cmd_text l) = false.
Proof. rewrite subst_text. by destruct (String.eqb l Wrapper.dot_text). Qed.

Lemma subst_indent_no_lf L l :
  mem lf l = false → mem lf (subst_line L Wrapper.cmd_indent l) = false.
Proof.
  intros Hl. rewrite subst_indent. destruct (span L Space l); [done|].
  change (Ascii.eqb tab lf || mem lf (drop (S n) l) = false).
  rewrite tab_no_lf. by apply StrFacts.mem_drop.
Qed.

Lemma subst_text_nonempty L l :
  subst_line L Wrapper.cmd_text l = EmptyString → l = EmptyString.
Proof. rewrite subst_text. by destruct (String.eqb l Wrapper.dot_text). Qed.

Lemma subst_indent_nonempty L l :
  subst_line L Wrapper.cmd_indent l = EmptyString → l = EmptyString.
Proof. rewrite subst_indent. by destruct (span L Space l). Qed.

(** The two sample locales are locales. *)
Lemma c_locale_ok : locale_ok c_locale.
Proof.
  split.
  - intros [|c s]; simpl; [lia|]. destruct (ascii_space c); lia.
  - intros c s Hc. simpl. by rewrite Hc.
  - intros c s Hc. simpl.
    destruct c as [[|] [|] [|] [|] [|] [|] [|] [|]]; done.
  - intros [|c s] t; simpl; [lia|done].
Qed.

Lemma wide_locale_ok : locale_ok wide_locale.
Proof.
  split.
  - intros [|c s]; cbn [space_len wide_locale String.length]; [lia|].
    destruct (ascii_space c); [lia|].
    destruct (startswith em_space (String c s)
              || startswith ideographic_space (String c s)) eqn:E; [|lia].
    destruct s as [|c1 [|c2 s]]; [| |simpl; lia].
    + apply orb_true_iff in E as [E|E]; simpl in E;
        by rewrite andb_false_r in E.
    + apply orb_true_iff in E as [E|E]; simpl in E;
        by rewrite !andb_false_r in E.
  - intros c s Hc. simpl. by rewrite Hc.
  - intros c s Hc. cbn [space_len wide_locale].
    destruct c as [[|] [|] [|] [|] [|] [|] [|] [|]]; done.
  - intros [|c s] t; cbn [space_len wide_locale]; [lia|].
    change (String c s +:+ t) with (String c (s +:+ t)). cbv iota.
    destruct (ascii_space c); [done|].
    destruct (startswith em_space (String c s)) eqn:E1.
    + intros _.
      pose proof (StrFacts.startswith_prefix em_space (String c s) t E1) as H.
      change (String c s +:+ t) with (String c (s +:+ t)) in H. by rewrite H.
    + destruct (startswith ideographic_space (String c s)) eqn:E2;
        [|simpl; lia]. intros _.
      pose proof (StrFacts.startswith_prefix ideographic_space (String c s) t E2)
        as H.
      change (String c s +:+ t) with (String c (s +:+ t)) in H. rewrite H.
      by rewrite orb_true_r.
Qed.

Section locale.
Variable L : locale.
Hypothesis HL : locale_ok L.

Lemma begins_false s :
  Wrapper.begins_with_space L s = false ↔ space_len L s = 0.
Proof.
  unfold Wrapper.begins_with_space.
  destruct (Nat.eqb_spec (space_len L s) 0); simpl; split; done.
Qed.

Lemma run_0 fuel s : space_len L s = 0 → run L Space fuel s = 0.
Proof. intros H. destruct fuel; [done|]. cbn [run atom_len]. by rewrite H. Qed.

Lemma span_space_0 s :
  Wrapper.begins_with_space L s = false → span L Space s = 0.
Proof. intros H%begins_false. by apply run_0. Qed.

Lemma span_0_begins s :
  span L Space s = 0 → Wrapper.begins_with_space L s = false.
Proof.
  intros H. apply begins_false. unfold span in H.
  pose proof (space_len_bound L HL s) as Hb.
  destruct (String.length s) eqn:Hlen; [lia|].
  cbn [run atom_len] in H. destruct (space_len L s); [done|lia].
Qed.

(** What follows the longest run of whitespace does not begin with
    whitespace. *)
Lemma run_rest fuel s :
  String.length s ≤ fuel → space_len L (drop (run L Space fuel s) s) = 0.
Proof.
  revert s. induction fuel as [|fuel IH]; intros s Hlen.
  - pose proof (space_len_bound L HL s). simpl. lia.
  - cbn [run atom_len]. destruct (space_len L s) as [|n] eqn:E; [done|].
    rewrite StrFacts.drop_drop. apply IH.
    rewrite StrFacts.drop_length. lia.
Qed.

Lemma span_rest s : Wrapper.begins_with_space L (drop (span L Space s) s) = false.
Proof. apply begins_false, run_rest. done. Qed.

(** A tab in front of something that does not begin with whitespace is
    a run of whitespace of one byte. *)
Lemma span_tab rest :
  Wrapper.begins_with_space L rest = false → span L Space (String tab rest) = 1.
Proof.
  intros H%begins_false. unfold span. cbn [String.length run atom_len].
  rewrite (space_len_ascii L HL tab rest eq_refl).
  change (drop 1 (String tab rest)) with rest. by rewrite run_0.
Qed.

(** A sequence of whitespace characters in front of something that does
    not begin with whitespace is the longest run of whitespace. *)
Lemma run_app n ws : ∀ m rest,
  Wrapper.spaces L n ws = true →
  String.length (ws +:+ rest) ≤ m → space_len L rest = 0 →
  run L Space m (ws +:+ rest) = String.length ws.
Proof.
  revert ws. induction n as [|n IH]; intros [|c ws] m rest Hws Hm Hrest;
    try done.
  - by apply run_0.
  - by apply run_0.
  - cbn [Wrapper.spaces] in Hws.
    destruct (space_len L (String c ws)) as [|k] eqn:Hk; [done|].
    pose proof (space_len_bound L HL (String c ws)) as Hb.
    destruct m as [|m]; [simpl in Hm; lia|].
    cbn [run atom_len].
    rewrite (space_len_prefix L HL (String c ws) rest) by lia. rewrite Hk.
    rewrite StrFacts.drop_app_le by lia.
    rewrite (IH _ m rest Hws); [|  |done].
    + rewrite StrFacts.drop_length. lia.
    + pose proof (StrFacts.drop_app_le (S k) (String c ws) rest ltac:(lia)) as Hd.
      rewrite <- Hd, StrFacts.drop_length. lia.
Qed.

Lemma span_space_app ws rest :
  Wrapper.all_space L ws = true → Wrapper.begins_with_space L rest = false →
  span L Space (ws +:+ rest) = String.length ws.
Proof.
  intros Hws Hrest%begins_false. by eapply run_app.
Qed.

End locale.

Section per_line.
Variable f : string → string.
Hypothesis f_no_lf : ∀ l, mem lf l = false → mem lf (f l) = false.
Hypothesis f_nonempty : ∀ l, f l = EmptyString → l = EmptyString.

Lemma map_lines_nonempty segs : segs ≠ [] → map_lines f segs ≠ [].
Proof.
  destruct segs as [|seg [|seg' segs]]; simpl; try done.
  by destruct (String.eqb seg EmptyString).
Qed.

Lemma map_lines_no_lf segs :
  Forall (λ seg, mem lf seg = false) segs →
  Forall (λ seg, mem lf seg = false) (map_lines f segs).
Proof.
  induction segs as [|seg segs IH]; [done|].
  intros Hall. inversion Hall as [|? ? Hseg Hrest]; subst.
  destruct segs as [|seg' segs].
  - simpl. destruct (String.eqb seg EmptyString); constructor; auto.
  - change (map_lines f (seg :: seg' :: segs))
      with (f seg :: map_lines f (seg' :: segs)).
    constructor; auto.
Qed.

Lemma drop_final_empty_map_lines segs :
  drop_final_empty (map_lines f segs) = f <$> drop_final_empty segs.
Proof.
  induction segs as [|seg segs IH]; [done|].
  destruct segs as [|seg' segs].
  - simpl. destruct (String.eqb seg EmptyString) eqn:E; simpl.
    + by rewrite E.
    + destruct (String.eqb (f seg) EmptyString) eqn:E'; [|done].
      apply String.eqb_eq, f_nonempty in E'. subst seg. done.
  - change (map_lines f (seg :: seg' :: segs))
      with (f seg :: map_lines f (seg' :: segs)).
    change (drop_final_empty (seg :: seg' :: segs))
      with (seg :: drop_final_empty (seg' :: segs)).
    rewrite fmap_cons, <- IH.
    destruct (map_lines f (seg' :: segs)) eqn:E; [|done].
    by apply map_lines_nonempty in E.
Qed.
End per_line.

(** A command that neither introduces a line feed nor empties a line
    acts on the lines of the file one by one. *)
Lemma file_lines_sed L c text :
  (∀ l, mem lf l = false → mem lf (subst_line L c l) = false) →
  (∀ l, subst_line L c l = EmptyString → l = EmptyString) →
  file_lines (sed_inplace L c text) = subst_line L c <$> file_lines text.
Proof.
  intros Hlf Hne. unfold file_lines, sed_inplace.
  rewrite StrFacts.split_join.
  - by apply drop_final_empty_map_lines.
  - apply map_lines_nonempty, StrFacts.split_nonempty.
  - apply map_lines_no_lf; [done|]. apply StrFacts.split_no_sep.
Qed.

(** The script rewrites the file line by line. *)
Lemma file_lines_rewrite L text :
  file_lines (Wrapper.rewrite_file L text)
  = Wrapper.rewrite_line L <$> file_lines text.
Proof.
  unfold Wrapper.rewrite_file. rewrite sed_commands_eq. simpl foldl.
  rewrite file_lines_sed
    by (apply subst_indent_no_lf || apply subst_indent_nonempty).
  rewrite file_lines_sed
    by (apply subst_text_no_lf || apply subst_text_nonempty).
  rewrite <- list_fmap_compose. apply list_fmap_ext.
  intros i l _. simpl. by rewrite rewrite_line_eq.
Qed.

End SedFacts.

(** ** Facts about the world model *)

(** Unfolds the monad and the primitives of [Host], leaving the finite maps
    alone. *)
Ltac host_unfold :=
  cbv beta iota zeta delta
    [Fuzzer.instrument_binary Fuzzer.build Fuzzer.build_uninstrumented_benchmark
     Fuzzer.prepare_fuzz_environment Fuzzer.fuzz
     mbind mret Host.M_bind Host.M_ret Host.raise
     Host.getenv Host.environ_get Host.environ_set Host.environ_copy
     Host.opt_add Host.add_opt Host.write_file Host.chmod Host.copy
     Host.spawn Host.call Host.check_call Host.run_check
     Host.with_environ Host.with_files Host.log Host.world_of Host.events_of
     Host.environ Host.files Host.cwd Host.trace
     Tools.ddisasm_argv Tools.pprinter_argv Tools.afl_fuzz_argv
     Tools.build_argv Tools.fuzzer_lib Tools.assembler
     Tools.driver].

Ltac host_unfold_in H :=
  cbv beta iota zeta delta
    [Fuzzer.instrument_binary Fuzzer.build Fuzzer.build_uninstrumented_benchmark
     Fuzzer.prepare_fuzz_environment Fuzzer.fuzz
     mbind mret Host.M_bind Host.M_ret Host.raise
     Host.getenv Host.environ_get Host.environ_set Host.environ_copy
     Host.opt_add Host.add_opt Host.write_file Host.chmod Host.copy
     Host.spawn Host.call Host.check_call Host.run_check
     Host.with_environ Host.with_files Host.log Host.world_of Host.events_of
     Host.environ Host.files Host.cwd Host.trace
     Tools.ddisasm_argv Tools.pprinter_argv Tools.afl_fuzz_argv
     Tools.build_argv Tools.fuzzer_lib Tools.assembler
     Tools.driver] in H.

Module HostFacts.
Import Host.

Lemma bind_Ok {A B} (m : M A) (k : A → M B) w a w' :
  m w = Ok a w' → (m ≫= k) w = k a w'.
Proof. unfold mbind, M_bind. by intros ->. Qed.

Lemma bind_Raise {A B} (m : M A) (k : A → M B) w e w' :
  m w = Raise e w' → (m ≫= k) w = Raise e w'.
Proof. unfold mbind, M_bind. by intros ->. Qed.

Lemma resolve_abs wd p : Str.startswith "/" p = true → resolve wd p = p.
Proof. unfold resolve, path_join. by intros ->. Qed.

(** A relative path keeps its last character when it is resolved. *)
Lemma last_char_resolve wd p :
  p ≠ EmptyString → Str.last_char (resolve wd p) = Str.last_char p.
Proof.
  intros Hp. unfold resolve, path_join.
  destruct (Str.startswith "/" p); [done|].
  destruct (String.eqb wd EmptyString); [done|].
  destruct (decide _).
  - by apply StrFacts.last_char_app.
  - rewrite StrFacts.last_char_app by done.
    by destruct p.
Qed.

Lemma resolve_neq wd p q :
  p ≠ EmptyString → Str.last_char p ≠ Str.last_char q → resolve wd p ≠ q.
Proof. intros Hp Hne <-. by rewrite last_char_resolve in Hne. Qed.

End HostFacts.

(** Case analysis on the outcome of the child process the goal is about to
    run. *)
Ltac exec_cases c fs E :=
  match goal with
  | |- context [Host.exec ?h ?a ?e ?wd ?f] =>
      destruct (Host.exec h a e wd f) as [[c fs]|] eqn:E
  end; host_unfold.

(** ** The instrumentation pipeline *)

(** C2. When the disassembler child ([ddisasm]) exits with a non-zero
    status, [instrument_binary] raises [CalledProcessError] with that
    status; the only request it has made by then is the run of [ddisasm]
    (so [gtirb-pprinter] is not invoked), and the file system is as the
    disassembler left it: the stage itself has created no file, the
    [.dafl] binary included. *)
Theorem ddisasm_failure_aborts (h : Host.host) (w : Host.world)
    (target out : string) (code : Z) (fs' : gmap string Host.file) :
  Host.environ w !! "FUZZ_TARGET" = Some target →
  Host.environ w !! "OUT" = Some out →
  Host.exec h (Tools.ddisasm_argv ((out +:+ "/") +:+ target) (target +:+ ".gtirb"))
    (Host.environ w) (Host.cwd w) (Host.files w) = Some (code, fs') →
  code ≠ 0%Z →
  ∃ w',
    Fuzzer.instrument_binary h w
    = Host.Raise (Host.CalledProcessError code
                    (Tools.ddisasm_argv ((out +:+ "/") +:+ target) (target +:+ ".gtirb"))) w'
    ∧ Host.events_of w (Fuzzer.instrument_binary h w)
      = [Host.Exec (Tools.ddisasm_argv ((out +:+ "/") +:+ target) (target +:+ ".gtirb"))
                   (Host.environ w) (Some code)]
    ∧ Host.files w' = fs'.
Proof.
  intros Ht Ho He Hc. destruct w as [env fs wd tr].
  host_unfold. host_unfold_in Ht. host_unfold_in Ho. host_unfold_in He.
  rewrite Ht, Ho. host_unfold. rewrite He.
  destruct (decide (code = 0%Z)) as [|_]; [done|].
  eexists. split; [reflexivity|]. host_unfold.
  split; [|done]. by rewrite drop_app_length.
Qed.

Lemma ddisasm_failure_aborts_witness :
  ∃ w',
    Fuzzer.instrument_binary (Sample.sample_host 0 1 0 0) (Sample.sample_world "/src")
    = Host.Raise (Host.CalledProcessError 1
                    (Tools.ddisasm_argv "/out/sample" "sample.gtirb")) w'
    ∧ Host.events_of (Sample.sample_world "/src")
        (Fuzzer.instrument_binary (Sample.sample_host 0 1 0 0) (Sample.sample_world "/src"))
      = [Host.Exec (Tools.ddisasm_argv "/out/sample" "sample.gtirb")
                   Sample.sample_environ (Some 1%Z)]
    ∧ Host.files w' = Sample.sample_files.
Proof.
  apply (ddisasm_failure_aborts (Sample.sample_host 0 1 0 0)
           (Sample.sample_world "/src") "sample" "/out" 1 Sample.sample_files).
  - reflexivity.
  - reflexivity.
  - reflexivity.
  - lia.
Defined.

(** ** The rewriting done by the wrapper script *)

(** C3. In every assembly text and every locale, a line that is exactly
    [.text] is, after the two substitutions of the wrapper script have
    been applied in order, a single tab character followed by [.text]. *)
Theorem wrapper_tabs_dot_text (L : Sed.locale) (text : string) (i : nat) :
  Sed.locale_ok L →
  Sed.file_lines text !! i = Some ".text" →
  Sed.file_lines (Wrapper.rewrite_file L text) !! i
  = Some (String Str.tab ".text").
Proof.
  intros HL Hi. rewrite SedFacts.file_lines_rewrite, list_lookup_fmap, Hi.
  simpl. rewrite SedFacts.rewrite_line_eq, SedFacts.subst_text.
  change (String.eqb ".text" Wrapper.dot_text) with true. cbv iota.
  rewrite SedFacts.subst_indent. unfold Wrapper.tab_dot_text.
  rewrite (SedFacts.span_tab L HL); [done|].
  apply SedFacts.begins_false. by apply (Sed.space_len_graphic L HL).
Qed.

Lemma wrapper_tabs_dot_text_witness :
  Sed.file_lines (Wrapper.rewrite_file Sed.wide_locale "main:
.text
    ret
") !! 1 = Some (String Str.tab ".text")
  ∧ Sed.file_lines (Wrapper.rewrite_file Sed.c_locale Cases.printed_asm) !! 0
    = Some (String Str.tab ".text").
Proof.
  split.
  - apply (wrapper_tabs_dot_text Sed.wide_locale "main:
.text
    ret
" 1).
    + exact SedFacts.wide_locale_ok.
    + reflexivity.
  - apply (wrapper_tabs_dot_text Sed.c_locale Cases.printed_asm 0).
    + exact SedFacts.c_locale_ok.
    + reflexivity.
Defined.

(** C4. In every locale, a line that begins with one or more whitespace
    characters comes out of the wrapper script's rewrite with its maximal
    leading run of whitespace ([ws], a sequence of whitespace characters
    of the locale, followed by a [rest] that does not begin with one)
    replaced by exactly one tab character; a line that does not begin
    with whitespace and is not exactly [.text] comes out unchanged. *)
Theorem wrapper_normalises_indentation (L : Sed.locale) (text : string)
    (i : nat) (line : string) :
  Sed.locale_ok L →
  Sed.file_lines text !! i = Some line →
  (∀ ws rest : string,
      line = ws +:+ rest → ws ≠ EmptyString →
      Wrapper.all_space L ws = true → Wrapper.begins_with_space L rest = false →
      Sed.file_lines (Wrapper.rewrite_file L text) !! i
      = Some (String Str.tab rest))
  ∧ (Wrapper.begins_with_space L line = false → line ≠ ".text" →
      Sed.file_lines (Wrapper.rewrite_file L text) !! i = Some line).
Proof.
  intros HL Hi. rewrite SedFacts.file_lines_rewrite, list_lookup_fmap, Hi.
  simpl. rewrite SedFacts.rewrite_line_eq, SedFacts.subst_text. split.
  - intros ws rest -> Hne Hws Hrest.
    assert (String.eqb (ws +:+ rest) Wrapper.dot_text = false) as ->.
    { apply String.eqb_neq. intros Heq.
      pose proof (SedFacts.span_space_app L HL ws rest Hws Hrest) as Hspan.
      rewrite Heq in Hspan. rewrite SedFacts.span_space_0 in Hspan.
      - by destruct ws.
      - apply SedFacts.begins_false. by apply (Sed.space_len_graphic L HL). }
    rewrite SedFacts.subst_indent, (SedFacts.span_space_app L HL) by done.
    pose proof (StrFacts.drop_app_length ws rest) as Hdrop.
    destruct (String.length ws) eqn:Hlen.
    + by destruct ws.
    + by rewrite Hdrop.
  - intros Hline Hne.
    assert (String.eqb line Wrapper.dot_text = false) as ->
      by by apply String.eqb_neq.
    rewrite SedFacts.subst_indent. by rewrite SedFacts.span_space_0.
Qed.

Lemma wrapper_normalises_indentation_witness :
  (Sed.file_lines (Wrapper.rewrite_file Sed.wide_locale Cases.wide_asm) !! 0
   = Some (String Str.tab "nop")
   ∧ Sed.file_lines (Wrapper.rewrite_file Sed.wide_locale Cases.wide_asm) !! 1
     = Some "main:"
   ∧ Sed.file_lines (Wrapper.rewrite_file Sed.wide_locale Cases.wide_asm) !! 2
     = Some (String Str.tab "ret"))
  ∧ Sed.file_lines (Wrapper.rewrite_file Sed.c_locale Cases.wide_asm) !! 0
    = Some (String Str.tab (Sed.em_space +:+ "nop"))
  ∧ Sed.file_lines (Wrapper.rewrite_file Sed.c_locale Cases.wide_asm) !! 2
    = Some (Sed.em_space +:+ "ret").
Proof.
  split; [split; [|split]|split].
  - apply (proj1 (wrapper_normalises_indentation Sed.wide_locale Cases.wide_asm
                    0 (Cases.wide_indent +:+ "nop") SedFacts.wide_locale_ok
                    eq_refl) Cases.wide_indent "nop");
      [reflexivity|discriminate|reflexivity|reflexivity].
  - apply (proj2 (wrapper_normalises_indentation Sed.wide_locale Cases.wide_asm
                    1 "main:" SedFacts.wide_locale_ok eq_refl));
      [reflexivity|discriminate].
  - apply (proj1 (wrapper_normalises_indentation Sed.wide_locale Cases.wide_asm
                    2 (Sed.em_space +:+ "ret") SedFacts.wide_locale_ok
                    eq_refl) Sed.em_space "ret");
      [reflexivity|discriminate|reflexivity|reflexivity].
  - apply (proj1 (wrapper_normalises_indentation Sed.c_locale Cases.wide_asm
                    0 (Cases.wide_indent +:+ "nop") SedFacts.c_locale_ok
                    eq_refl) "  " (Sed.em_space +:+ "nop"));
      [reflexivity|discriminate|reflexivity|reflexivity].
  - apply (proj2 (wrapper_normalises_indentation Sed.c_locale Cases.wide_asm
                    2 (Sed.em_space +:+ "ret") SedFacts.c_locale_ok eq_refl));
      [reflexivity|discriminate].
Defined.

(** C1, as the code has it. After every successful run of
    [instrument_binary] with [FUZZ_TARGET = sample] and [OUT = /out],
    when a successful [ddisasm] leaves the IR file and does not touch
    [/out/sample], and a successful [gtirb-pprinter], started with the
    wrapper script in place, leaves the binary and does not touch the IR
    file, [/out/sample] or the wrapper script (what the tools do to other
    files is left open): the IR file exists at [sample.gtirb] resolved
    against the working directory (which is [/out/sample.gtirb] when the
    working directory is [/out]), [/out/sample.dafl] exists, [/out/sample]
    is as it was, and the wrapper script is at its fixed path with the
    text of [create_assembler] and mode [0o777], whose bits permit
    execution for all ([0o111]). *)
Theorem instrument_binary_layout (h : Host.host) (w w' : Host.world) :
  Tools.ddisasm_contract h "/out/sample" "sample.gtirb" (λ p, p = "/out/sample") →
  Tools.pprinter_contract h "sample.gtirb" "/out/sample.dafl"
    (λ p, p ∈ [Host.resolve (Host.cwd w) "sample.gtirb"; "/out/sample";
               Tools.assembler]) →
  Host.environ w !! "FUZZ_TARGET" = Some "sample" →
  Host.environ w !! "OUT" = Some "/out" →
  Fuzzer.instrument_binary h w = Host.Ok () w' →
  is_Some (Host.files w' !! Host.resolve (Host.cwd w) "sample.gtirb")
  ∧ (Host.cwd w = "/out" → is_Some (Host.files w' !! "/out/sample.gtirb"))
  ∧ is_Some (Host.files w' !! "/out/sample.dafl")
  ∧ Host.files w' !! "/out/sample" = Host.files w !! "/out/sample"
  ∧ ∃ f, Host.files w' !! "/src/fuzzers/aflplusplus_ddisasm/assemble.sh" = Some f
         ∧ Host.f_data f = Wrapper.create_assembler
         ∧ Host.f_mode f = 511%N
         ∧ N.land (Host.f_mode f) 73 = 73%N.
Proof.
  intros Hd Hp Ht Ho. destruct w as [env fs wd tr].
  host_unfold_in Ht. host_unfold_in Ho. host_unfold_in Hp.
  host_unfold. rewrite Ht, Ho. host_unfold. cbn [String.append].
  exec_cases c1 fs1 E1; [|done].
  destruct (decide (c1 = 0%Z)) as [->|]; [|done].
  rewrite (HostFacts.resolve_abs wd "/src/fuzzers/aflplusplus_ddisasm/assemble.sh")
    by reflexivity.
  destruct (Host.writable h _); [|done]. host_unfold.
  rewrite lookup_insert_eq, Ho. host_unfold. cbn [String.append].
  exec_cases c2 fs2 E2; [|done].
  destruct (decide (c2 = 0%Z)) as [->|]; [|done].
  intros [= <-]. host_unfold.
  destruct (Hd _ _ _ _ I E1) as [Hir Hframe1].
  destruct (Hp _ _ _ _ (lookup_insert_eq _ _ _) E2) as [Hout Hframe2].
  rewrite (HostFacts.resolve_abs wd "/out/sample.dafl") in Hout, Hframe2 by reflexivity.
  assert (∀ q, Str.last_char q ≠ Some "b"%char →
               Host.resolve wd "sample.gtirb" ≠ q) as Hne.
  { intros q Hq. apply HostFacts.resolve_neq; [done|].
    intros Heq. apply Hq. by rewrite <- Heq. }
  assert (is_Some (fs2 !! Host.resolve wd "sample.gtirb")) as Hir'.
  { rewrite Hframe2; [|apply list_elem_of_here|by apply Hne].
    rewrite insert_insert_eq, lookup_insert_ne; [done|].
    apply not_eq_sym. by apply Hne. }
  split; [done|]. split; [by intros ->|]. split; [done|]. split.
  - rewrite Hframe2; [|apply list_elem_of_further, list_elem_of_here|done].
    rewrite insert_insert_eq, lookup_insert_ne by done.
    apply Hframe1; [done|]. apply not_eq_sym. by apply Hne.
  - eexists. rewrite Hframe2;
      [|do 2 apply list_elem_of_further; apply list_elem_of_here|done].
    rewrite insert_insert_eq, lookup_insert_eq. done.
Qed.

(** The sample tools keep to the command-line contracts, whatever the
    files to be kept. *)
Lemma sample_ddisasm_contract (b d p f : Z) binary ir kept :
  Tools.ddisasm_contract (Sample.sample_host b d p f) binary ir kept.
Proof.
  intros env wd fs fs' _.
  cbv beta iota delta
    [Sample.sample_host Sample.sample_exec Host.exec Tools.ddisasm_argv].
  change (String.eqb "ddisasm" "/bin/bash") with false.
  change (String.eqb "ddisasm" "ddisasm") with true. cbv iota.
  intros [= -> <-]. rewrite decide_True by done. split.
  - rewrite lookup_insert_eq. by eexists.
  - intros q _ Hq. by rewrite lookup_insert_ne.
Qed.

Lemma sample_pprinter_contract (b d p f : Z) ir out kept :
  Tools.pprinter_contract (Sample.sample_host b d p f) ir out kept.
Proof.
  intros env wd fs fs' _.
  cbv beta iota delta
    [Sample.sample_host Sample.sample_exec Host.exec Tools.pprinter_argv].
  change (String.eqb "gtirb-pprinter" "/bin/bash") with false.
  change (String.eqb "gtirb-pprinter" "ddisasm") with false.
  change (String.eqb "gtirb-pprinter" "gtirb-pprinter") with true. cbv iota.
  intros [= -> <-]. rewrite decide_True by done. split.
  - rewrite lookup_insert_eq. by eexists.
  - intros q _ Hq. by rewrite lookup_insert_ne.
Qed.

(** So do the tools that leave scratch files, for files other than
    these. *)
Lemma scratch_ddisasm_contract binary ir kept :
  Tools.ddisasm_contract Cases.scratch_host binary ir kept.
Proof.
  intros env wd fs fs' _.
  cbv beta iota delta
    [Cases.scratch_host Cases.scratch_exec Sample.sample_exec Host.exec
     Tools.ddisasm_argv].
  change (String.eqb "ddisasm" "/bin/bash") with false.
  change (String.eqb "ddisasm" "ddisasm") with true.
  change (String.eqb "ddisasm" "gtirb-pprinter") with false. cbv iota.
  intros [= <-]. split.
  - rewrite lookup_insert_eq. by eexists.
  - intros q _ Hq. by rewrite lookup_insert_ne.
Qed.

Lemma scratch_pprinter_contract ir out (kept : string → Prop) :
  ¬ kept Cases.kept_assembly →
  Tools.pprinter_contract Cases.scratch_host ir out kept.
Proof.
  intros Hkept env wd fs fs' _.
  cbv beta iota delta
    [Cases.scratch_host Cases.scratch_exec Sample.sample_exec Host.exec
     Tools.pprinter_argv].
  change (String.eqb "gtirb-pprinter" "/bin/bash") with false.
  change (String.eqb "gtirb-pprinter" "ddisasm") with false.
  change (String.eqb "gtirb-pprinter" "gtirb-pprinter") with true. cbv iota.
  intros [= <-]. split.
  - rewrite lookup_insert. case_decide; [by eexists|].
    rewrite lookup_insert_eq. by eexists.
  - intros q Hq Hne. rewrite !lookup_insert_ne; [done|done|].
    intros <-. done.
Qed.

Lemma scratch_instrumented :
  Fuzzer.instrument_binary Cases.scratch_host (Sample.sample_world "/src")
  = Host.Ok () Cases.scratch_instrumented.
Proof. vm_compute. reflexivity. Qed.

Lemma sample_instrumented :
  Fuzzer.instrument_binary (Sample.sample_host 0 0 0 0) (Sample.sample_world "/src")
  = Host.Ok () (Sample.instrumented "/src").
Proof. vm_compute. reflexivity. Qed.

Lemma instrument_binary_layout_witness :
  is_Some (Host.files Cases.scratch_instrumented !! "/src/sample.gtirb")
  ∧ is_Some (Host.files Cases.scratch_instrumented !! "/out/sample.dafl")
  ∧ Host.files Cases.scratch_instrumented !! "/out/sample"
    = Some (Host.File "ELF" 493)
  ∧ ∃ f, Host.files Cases.scratch_instrumented !! Tools.assembler = Some f
         ∧ Host.f_data f = Wrapper.create_assembler
         ∧ Host.f_mode f = 511%N.
Proof.
  assert (¬ Cases.kept_assembly
            ∈ [Host.resolve "/src" "sample.gtirb"; "/out/sample"; Tools.assembler])
    as Hkept.
  { intros H.
    repeat (apply elem_of_cons in H as [H|H];
            [vm_compute in H; discriminate H|]).
    exact (not_elem_of_nil _ H). }
  destruct (instrument_binary_layout Cases.scratch_host
              (Sample.sample_world "/src") Cases.scratch_instrumented
              (scratch_ddisasm_contract _ _ _)
              (scratch_pprinter_contract _ _ _ Hkept)
              eq_refl eq_refl scratch_instrumented)
    as (Hir & _ & Hout & Hbin & f & Hf & Hdata & Hmode & _).
  split; [exact Hir|]. split; [exact Hout|]. split; [exact Hbin|].
  exists f. split; [exact Hf|]. split; [exact Hdata|exact Hmode].
Defined.

(** C1, as the spec states it, fails, whatever else the tools keep: run
    from the working directory [/src], a successful [instrument_binary]
    with [FUZZ_TARGET = sample] and [OUT = /out] leaves the IR at
    [/src/sample.gtirb], and there is no [/out/sample.gtirb]. *)
Lemma instrument_binary_gtirb_not_in_out :
  ¬ (∀ (h : Host.host) (w w' : Host.world),
       Tools.ddisasm_contract h "/out/sample" "sample.gtirb" (λ _, True) →
       Tools.pprinter_contract h "sample.gtirb" "/out/sample.dafl" (λ _, True) →
       Host.environ w !! "FUZZ_TARGET" = Some "sample" →
       Host.environ w !! "OUT" = Some "/out" →
       Fuzzer.instrument_binary h w = Host.Ok () w' →
       is_Some (Host.files w' !! "/out/sample.gtirb")
       ∧ is_Some (Host.files w' !! "/out/sample.dafl")
       ∧ Host.files w' !! "/out/sample" = Host.files w !! "/out/sample"
       ∧ ∃ f, Host.files w' !! "/src/fuzzers/aflplusplus_ddisasm/assemble.sh" = Some f
              ∧ N.land (Host.f_mode f) 73 = 73%N).
Proof.
  intros Hclaim.
  destruct (Hclaim (Sample.sample_host 0 0 0 0) (Sample.sample_world "/src")
              (Sample.instrumented "/src")
              (sample_ddisasm_contract 0 0 0 0 _ _ _)
              (sample_pprinter_contract 0 0 0 0 _ _ _)
              eq_refl eq_refl sample_instrumented)
    as [[f Hf] _].
  vm_compute in Hf. discriminate Hf.
Qed.

(** ** The build *)

(** Closes a goal [∃ evs, tr' = tr ++ evs ∧ Forall P evs] where [tr'] is
    [tr] followed by explicit events. *)
Ltac close_trace :=
  first
    [ by (exists []; split; [by rewrite app_nil_r | constructor])
    | rewrite <- ?app_assoc; eexists; split;
      [reflexivity | repeat constructor] ].

(** Case analysis on an innermost scrutinee of the goal. *)
Ltac inner_case :=
  match goal with
  | |- context [match ?x with _ => _ end] =>
      lazymatch x with
      | context [match _ with _ => _ end] => fail
      | decide (?a = ?b) => destruct (decide (a = b)) as [->|?]
      | _ =>
          lazymatch type of x with
          | Host.world => fail
          | _ => destruct x eqn:?
          end
      end
  end.

Module EnvFacts.

(** The environment in which the build script runs keeps every variable
    that [build_uninstrumented_benchmark] does not set. *)
Lemma build_environ_lookup (env : gmap string string) (k : string) a b c d e :
  k ≠ "CC" → k ≠ "CXX" → k ≠ "CFLAGS" → k ≠ "CXXFLAGS" → k ≠ "FUZZER_LIB" →
  <["FUZZER_LIB" := e]> (<["CXXFLAGS" := d]> (<["CFLAGS" := c]>
    (<["CXX" := b]> (<["CC" := a]> env)))) !! k = env !! k.
Proof. intros. by rewrite !lookup_insert_ne. Qed.

End EnvFacts.

(** One step of symbolic execution: unfold, look up what was just stored,
    and reuse the outcomes already decided. *)
Ltac host_simpl :=
  host_unfold;
  rewrite ?lookup_insert_eq;
  rewrite ?EnvFacts.build_environ_lookup by done;
  rewrite ?(HostFacts.resolve_abs _ "/libStandaloneFuzzTarget.a") by reflexivity;
  rewrite ?(HostFacts.resolve_abs _ "/usr/lib/libFuzzingEngine.a") by reflexivity;
  rewrite ?(HostFacts.resolve_abs _ "/src/fuzzers/aflplusplus_ddisasm/assemble.sh")
    by reflexivity;
  rewrite ?(HostFacts.resolve_abs _ "/src/afl/afl-fuzz") by reflexivity;
  change (Host.basename "/src/afl/afl-fuzz") with "afl-fuzz";
  change (Host.basename "/libStandaloneFuzzTarget.a") with "libStandaloneFuzzTarget.a";
  repeat match goal with
         | H : ?x = _ |- context [match ?x with _ => _ end] => rewrite H
         end.

Ltac host_run := host_simpl; repeat (inner_case; host_simpl).

Module BuildFacts.
Import Host.

(** Whatever [build_uninstrumented_benchmark] does, it adds to the record
    nothing of the instrumentation pipeline and no copy of the driver. *)
Lemma uninstrumented_events h u w :
  ∃ evs,
    trace (world_of (Fuzzer.build_uninstrumented_benchmark h u w)) = trace w ++ evs
    ∧ Forall (λ ev, Tools.is_instrumentation_step ev = false
                    ∧ Tools.is_driver_copy ev = false) evs.
Proof.
  destruct w as [env fs wd tr]. host_run; close_trace.
Qed.

(** What a successful [build_uninstrumented_benchmark] leaves. *)
Lemma uninstrumented_ok h u w w1 :
  Fuzzer.build_uninstrumented_benchmark h u w = Ok () w1 →
  ∃ src benv lib_dst fs1,
    environ w !! "SRC" = Some src
    ∧ w1 = World benv fs1 (cwd w)
             (trace w ++
                [Copied Tools.fuzzer_lib lib_dst;
                 Exec (Tools.build_argv (path_join src "build.sh")) benv (Some 0%Z)])
    ∧ benv !! "OUT" = environ w !! "OUT"
    ∧ benv !! "FUZZ_TARGET" = environ w !! "FUZZ_TARGET".
Proof.
  destruct w as [env fs wd tr].
  host_run; try discriminate; intros [= <-];
    do 4 eexists; host_unfold;
    (split; [reflexivity|]);
    (split; [rewrite <- !app_assoc; reflexivity|]);
    split; apply EnvFacts.build_environ_lookup; done.
Qed.

End BuildFacts.

Module InstrumentFacts.
Import Host.

(** Whatever [instrument_binary] does, it adds no copy of the driver to
    the record. *)
Lemma instrument_events h w :
  ∃ evs,
    trace (world_of (Fuzzer.instrument_binary h w)) = trace w ++ evs
    ∧ Forall (λ ev, Tools.is_driver_copy ev = false) evs.
Proof. destruct w as [env fs wd tr]. host_run; close_trace. Qed.

(** What a successful [instrument_binary] leaves. *)
Lemma instrument_ok h w w2 :
  Fuzzer.instrument_binary h w = Ok () w2 →
  ∃ target out fs2,
    environ w !! "FUZZ_TARGET" = Some target
    ∧ environ w !! "OUT" = Some out
    ∧ w2 = World (environ w) fs2 (cwd w)
             (trace w ++
                [Exec (Tools.ddisasm_argv ((out +:+ "/") +:+ target)
                         (target +:+ ".gtirb")) (environ w) (Some 0%Z);
                 Wrote Tools.assembler;
                 Chmod Tools.assembler 511;
                 Exec (Tools.pprinter_argv (target +:+ ".gtirb")
                         ((out +:+ "/") +:+ (target +:+ ".dafl"))
                         Tools.assembler) (environ w) (Some 0%Z)]).
Proof.
  destruct w as [env fs wd tr].
  host_run; try discriminate; intros [= <-];
    do 3 eexists; host_unfold;
    (split; [reflexivity|]); (split; [reflexivity|]);
    rewrite <- !app_assoc; reflexivity.
Qed.

End InstrumentFacts.

(** C9. [build] runs the uninstrumented build, then the instrumentation
    pipeline, then copies the engine driver [/src/afl/afl-fuzz] into the
    output directory, in that order: a successful [build] has added to the
    record exactly the copy of the fuzzer library, the run of the build
    script, the run of [ddisasm], the writing and [chmod] of the wrapper,
    the run of [gtirb-pprinter] and last the copy of the driver, which
    lands in [$OUT] when that is a directory; the file at the destination
    then is the file at [/src/afl/afl-fuzz], content and mode. When the
    uninstrumented build
    raises, [build] raises the same exception in the same world, and
    nothing of the instrumentation pipeline nor a copy of the driver is on
    record; when the instrumentation pipeline raises, [build] raises the
    same exception in the same world and no copy of the driver is on
    record. *)
Theorem build_sequence (h : Host.host) (u : Fuzzer.utils) (w : Host.world) :
  (∀ w', Fuzzer.build h u w = Host.Ok () w' →
     ∃ src target out benv lib_dst,
       Host.environ w !! "SRC" = Some src
       ∧ Host.environ w !! "FUZZ_TARGET" = Some target
       ∧ Host.environ w !! "OUT" = Some out
       ∧ let driver_dst :=
           if Host.isdir h (Host.resolve (Host.cwd w) out)
           then Host.path_join (Host.resolve (Host.cwd w) out) "afl-fuzz"
           else Host.resolve (Host.cwd w) out in
         Host.trace w' = Host.trace w ++
           [ Host.Copied Tools.fuzzer_lib lib_dst;
             Host.Exec (Tools.build_argv (Host.path_join src "build.sh")) benv (Some 0%Z);
             Host.Exec (Tools.ddisasm_argv ((out +:+ "/") +:+ target)
                                           (target +:+ ".gtirb")) benv (Some 0%Z);
             Host.Wrote Tools.assembler;
             Host.Chmod Tools.assembler 511;
             Host.Exec (Tools.pprinter_argv (target +:+ ".gtirb")
                          ((out +:+ "/") +:+ (target +:+ ".dafl"))
                          Tools.assembler) benv (Some 0%Z);
             Host.Copied Tools.driver driver_dst ]
         ∧ is_Some (Host.files w' !! driver_dst)
         ∧ Host.files w' !! driver_dst = Host.files w' !! Tools.driver)
  ∧ (∀ e w1,
       Fuzzer.build_uninstrumented_benchmark h u w = Host.Raise e w1 →
       Fuzzer.build h u w = Host.Raise e w1
       ∧ ∃ evs, Host.trace w1 = Host.trace w ++ evs
                ∧ Forall (λ ev, Tools.is_instrumentation_step ev = false
                                ∧ Tools.is_driver_copy ev = false) evs)
  ∧ (∀ w1 e w2,
       Fuzzer.build_uninstrumented_benchmark h u w = Host.Ok () w1 →
       Fuzzer.instrument_binary h w1 = Host.Raise e w2 →
       Fuzzer.build h u w = Host.Raise e w2
       ∧ ∃ evs, Host.trace w2 = Host.trace w ++ evs
                ∧ Forall (λ ev, Tools.is_driver_copy ev = false) evs).
Proof.
  split; [|split].
  - intros w' Hrun. destruct w as [env fs wd tr]. unfold Fuzzer.build in Hrun.
    destruct (Fuzzer.build_uninstrumented_benchmark h u (Host.World env fs wd tr))
      as [[] w1|e w1] eqn:Hb;
      [|by rewrite (HostFacts.bind_Raise _ _ _ _ _ Hb) in Hrun].
    rewrite (HostFacts.bind_Ok _ _ _ _ _ Hb) in Hrun.
    destruct (Fuzzer.instrument_binary h w1) as [[] w2|e w2] eqn:Hi;
      [|by rewrite (HostFacts.bind_Raise _ _ _ _ _ Hi) in Hrun].
    rewrite (HostFacts.bind_Ok _ _ _ _ _ Hi) in Hrun.
    apply BuildFacts.uninstrumented_ok in Hb
      as (src & benv & lib_dst & fs1 & Hsrc & -> & Hout & Htgt).
    apply InstrumentFacts.instrument_ok in Hi as (target & out & fs2 & Ht & Ho & ->).
    host_unfold_in Ht. host_unfold_in Ho.
    rewrite Htgt in Ht. rewrite Hout in Ho.
    exists src, target, out, benv, lib_dst.
    do 3 (split; [done|]).
    revert Hrun. host_unfold. rewrite Hout, Ho. host_simpl.
    repeat (inner_case; host_simpl); try discriminate; intros [= <-]; host_unfold;
      (split; [rewrite <- !app_assoc; reflexivity|]);
      (split; [rewrite lookup_insert_eq; by eexists|]).
    all: match goal with
         | Hf : _ !! "/src/afl/afl-fuzz" = Some _,
           Hne : String.eqb "/src/afl/afl-fuzz" _ = false |- _ =>
             apply String.eqb_neq in Hne;
             rewrite lookup_insert_eq, lookup_insert_ne, Hf;
             [reflexivity|intros Heq; by apply Hne]
         end.
  - intros e w1 Hraise. split.
    + unfold Fuzzer.build. by rewrite (HostFacts.bind_Raise _ _ _ _ _ Hraise).
    + pose proof (BuildFacts.uninstrumented_events h u w) as Hev.
      by rewrite Hraise in Hev.
  - intros w1 e w2 Hok Hraise. split.
    + unfold Fuzzer.build. rewrite (HostFacts.bind_Ok _ _ _ _ _ Hok).
      by rewrite (HostFacts.bind_Raise _ _ _ _ _ Hraise).
    + destruct (BuildFacts.uninstrumented_events h u w) as (evs1 & Ht1 & Hall1).
      destruct (InstrumentFacts.instrument_events h w1) as (evs2 & Ht2 & Hall2).
      rewrite Hok in Ht1. rewrite Hraise in Ht2. simpl in Ht1, Ht2.
      exists (evs1 ++ evs2). split.
      * by rewrite Ht2, Ht1, app_assoc.
      * apply Forall_app. split; [|done].
        eapply Forall_impl; [exact Hall1|]. by intros ev [_ ?].
Qed.

Lemma sample_built :
  Fuzzer.build (Sample.sample_host 0 0 0 0)
    (Sample.sample_utils (Sample.sample_host 0 0 0 0)) (Sample.sample_world "/src")
  = Host.Ok () Sample.built.
Proof. vm_compute. reflexivity. Qed.

Lemma sample_build_script_failed :
  Fuzzer.build_uninstrumented_benchmark (Sample.sample_host 2 0 0 0)
    (Sample.sample_utils (Sample.sample_host 2 0 0 0)) (Sample.sample_world "/src")
  = Host.Raise (Host.CalledProcessError 2 (Tools.build_argv "/src/build.sh"))
      Sample.build_script_failed.
Proof. vm_compute. reflexivity. Qed.

Lemma sample_uninstrumented_built :
  Fuzzer.build_uninstrumented_benchmark (Sample.sample_host 0 3 0 0)
    (Sample.sample_utils (Sample.sample_host 0 3 0 0)) (Sample.sample_world "/src")
  = Host.Ok () Sample.uninstrumented_built.
Proof. vm_compute. reflexivity. Qed.

Lemma sample_ddisasm_failed :
  Fuzzer.instrument_binary (Sample.sample_host 0 3 0 0) Sample.uninstrumented_built
  = Host.Raise (Host.CalledProcessError 3
                  (Tools.ddisasm_argv "/out/sample" "sample.gtirb"))
      Sample.ddisasm_failed.
Proof. vm_compute. reflexivity. Qed.

Lemma build_sequence_witness :
  (∃ out, Host.environ (Sample.sample_world "/src") !! "OUT" = Some out
          ∧ Host.trace Sample.built !! 6
            = Some (Host.Copied Tools.driver (Host.path_join out "afl-fuzz"))
          ∧ Host.files Sample.built !! Host.path_join out "afl-fuzz"
            = Some (Host.File "AFL" 493))
  ∧ Fuzzer.build (Sample.sample_host 2 0 0 0)
      (Sample.sample_utils (Sample.sample_host 2 0 0 0)) (Sample.sample_world "/src")
    = Host.Raise (Host.CalledProcessError 2 (Tools.build_argv "/src/build.sh"))
        Sample.build_script_failed
  ∧ Fuzzer.build (Sample.sample_host 0 3 0 0)
      (Sample.sample_utils (Sample.sample_host 0 3 0 0)) (Sample.sample_world "/src")
    = Host.Raise (Host.CalledProcessError 3
                    (Tools.ddisasm_argv "/out/sample" "sample.gtirb"))
        Sample.ddisasm_failed.
Proof.
  split; [|split].
  - destruct (proj1 (build_sequence (Sample.sample_host 0 0 0 0)
                       (Sample.sample_utils (Sample.sample_host 0 0 0 0))
                       (Sample.sample_world "/src")) _ sample_built)
      as (src & target & out & benv & lib_dst & _ & _ & Hout & Htrace & _ & Hfile).
    exists out. split; [exact Hout|].
    assert (out = "/out") as -> by (vm_compute in Hout; congruence).
    split; [rewrite Htrace; reflexivity|]. exact Hfile.
  - exact (proj1 (proj1 (proj2 (build_sequence _ _ _)) _ _ sample_build_script_failed)).
  - exact (proj1 (proj2 (proj2 (build_sequence _ _ _)) _ _ _
                    sample_uninstrumented_built sample_ddisasm_failed)).
Defined.

(** ** The fuzz run *)

(** C5. In every call [fuzz(input_corpus, output_corpus, target_binary)]
    the environment is prepared first: when the preparation returns, the
    one request [fuzz] adds to the record after it is the run of exactly
    [./afl-fuzz -i input_corpus -o output_corpus -- target_binary.dafl @@],
    started in the environment and over the files that the preparation has
    left; when the preparation raises, [fuzz] raises with it and launches
    nothing. *)
Theorem fuzz_prepares_then_launches (h : Host.host) (u : Fuzzer.utils)
    (input_corpus output_corpus target_binary : string) (w : Host.world) :
  match Fuzzer.prepare_fuzz_environment u input_corpus w with
  | Host.Ok _ w1 =>
      let argv := ["./afl-fuzz"; "-i"; input_corpus; "-o"; output_corpus; "--";
                   target_binary +:+ ".dafl"; "@@"] in
      Host.trace (Host.world_of
                    (Fuzzer.fuzz h u input_corpus output_corpus target_binary w))
      = Host.trace w1
        ++ [Host.Exec argv (Host.environ w1)
              (fst <$> Host.exec h argv (Host.environ w1) (Host.cwd w1) (Host.files w1))]
  | Host.Raise e w1 =>
      Fuzzer.fuzz h u input_corpus output_corpus target_binary w = Host.Raise e w1
  end.
Proof.
  unfold Fuzzer.fuzz.
  destruct (Fuzzer.prepare_fuzz_environment u input_corpus w) as [[] w1|e w1] eqn:Hp.
  - rewrite (HostFacts.bind_Ok _ _ _ _ _ Hp). destruct w1 as [env fs wd tr].
    host_unfold. by destruct (Host.exec h _ env wd fs) as [[code fs']|].
  - by rewrite (HostFacts.bind_Raise _ _ _ _ _ Hp).
Qed.

(** C10. The command line that [fuzz] passes to the engine depends on its
    three arguments only: started from worlds that differ in the value of
    [FUZZ_TARGET], the runs of [fuzz] with the same arguments request the
    engine with the same argument vector. *)
Theorem fuzz_argv_ignores_fuzz_target (h : Host.host) (u : Fuzzer.utils)
    (input_corpus output_corpus target_binary : string)
    (w : Host.world) (v1 v2 : string) (w1 w2 : Host.world) :
  let wa := Host.with_environ (<["FUZZ_TARGET" := v1]> (Host.environ w)) w in
  let wb := Host.with_environ (<["FUZZ_TARGET" := v2]> (Host.environ w)) w in
  let argv := ["./afl-fuzz"; "-i"; input_corpus; "-o"; output_corpus; "--";
               target_binary +:+ ".dafl"; "@@"] in
  Fuzzer.prepare_fuzz_environment u input_corpus wa = Host.Ok () w1 →
  Fuzzer.prepare_fuzz_environment u input_corpus wb = Host.Ok () w2 →
  ∃ env1 st1 env2 st2,
    Host.events_of w1 (Fuzzer.fuzz h u input_corpus output_corpus target_binary wa)
    = [Host.Exec argv env1 st1]
    ∧ Host.events_of w2 (Fuzzer.fuzz h u input_corpus output_corpus target_binary wb)
      = [Host.Exec argv env2 st2].
Proof.
  intros wa wb argv Ha Hb. unfold Fuzzer.fuzz.
  rewrite (HostFacts.bind_Ok _ _ _ _ _ Ha), (HostFacts.bind_Ok _ _ _ _ _ Hb).
  destruct w1 as [env1 fs1 wd1 tr1], w2 as [env2 fs2 wd2 tr2].
  exists env1, (fst <$> Host.exec h argv env1 wd1 fs1),
         env2, (fst <$> Host.exec h argv env2 wd2 fs2).
  subst argv. host_unfold.
  destruct (Host.exec h _ env1 wd1 fs1) as [[c1 fs1']|];
    destruct (Host.exec h _ env2 wd2 fs2) as [[c2 fs2']|];
    host_unfold; by rewrite !drop_app_length.
Qed.

(** Unfolds the placeholder-seed helper of the spec. *)
Ltac seed_unfold :=
  cbv beta iota zeta delta
    [Sample.sample_utils Fuzzer.create_seed_file_for_empty_corpus
     Fuzzer.spec_create_seed_file
     Host.with_environ Host.with_files Host.log Host.world_of
     Host.environ Host.files Host.cwd Host.trace].

Module PrepareFacts.
Import Host.

(** With the helper of the spec, the preparation always returns. *)
Lemma prepare_spec_returns h flags flag name data input_corpus w :
  ∃ w',
    Fuzzer.prepare_fuzz_environment
      (Fuzzer.Utils flags flag (Fuzzer.spec_create_seed_file h name data))
      input_corpus w
    = Ok () w'.
Proof.
  destruct w as [env fs wd tr]. host_unfold. seed_unfold.
  case_decide; by eexists.
Qed.

End PrepareFacts.

Lemma sample_prepared (st : Z) (v : string) :
  Fuzzer.prepare_fuzz_environment (Sample.sample_utils (Sample.sample_host 0 0 0 st))
    "/corpus" (Sample.fuzz_world v)
  = Host.Ok () (Sample.prepared st v).
Proof.
  unfold Sample.prepared, Sample.sample_utils.
  destruct (PrepareFacts.prepare_spec_returns (Sample.sample_host 0 0 0 st)
              ["-pthread"; "-Wl,--no-as-needed"] "-stdlib=libc++"
              "default_seed" "hi" "/corpus" (Sample.fuzz_world v)) as [w' ->].
  reflexivity.
Qed.

Lemma fuzz_argv_ignores_fuzz_target_witness :
  ∃ env1 st1 env2 st2,
    Host.events_of (Sample.prepared 0 "sample")
      (Fuzzer.fuzz (Sample.sample_host 0 0 0 0)
         (Sample.sample_utils (Sample.sample_host 0 0 0 0))
         "/corpus" "/out/corpus" "/out/sample" (Sample.fuzz_world "sample"))
    = [Host.Exec (Tools.afl_fuzz_argv "/corpus" "/out/corpus" "/out/sample.dafl")
                 env1 st1]
    ∧ Host.events_of (Sample.prepared 0 "other")
        (Fuzzer.fuzz (Sample.sample_host 0 0 0 0)
           (Sample.sample_utils (Sample.sample_host 0 0 0 0))
           "/corpus" "/out/corpus" "/out/sample" (Sample.fuzz_world "other"))
      = [Host.Exec (Tools.afl_fuzz_argv "/corpus" "/out/corpus" "/out/sample.dafl")
                   env2 st2].
Proof.
  apply (fuzz_argv_ignores_fuzz_target (Sample.sample_host 0 0 0 0)
           (Sample.sample_utils (Sample.sample_host 0 0 0 0))
           "/corpus" "/out/corpus" "/out/sample"
           (Sample.sample_world "/out") "sample" "other"
           (Sample.prepared 0 "sample") (Sample.prepared 0 "other")).
  - exact (sample_prepared 0 "sample").
  - exact (sample_prepared 0 "other").
Defined.

(** ** Exit statuses *)

(** Settles a goal about a child with a non-zero exit status on the
    record: the events are explicit, and the only one it can be is the
    child that made the function raise. *)
Ltac solve_exit :=
  rewrite <- ?app_assoc; rewrite ?drop_app_length, ?drop_all;
  let Hin := fresh "Hin" in
  intros Hin;
  repeat (apply elem_of_cons in Hin as [Hin|Hin]);
  try (by apply elem_of_nil in Hin);
  try discriminate Hin;
  simplify_eq; try done; by eexists.

(** C6. [fuzz] does not check the exit status of the engine: whenever the
    engine runs and exits, with any status, [fuzz] returns normally. The
    earlier steps check theirs: a child of
    [build_uninstrumented_benchmark] (the build script) or of
    [instrument_binary] (the disassembler, the re-assembler) that exits
    with a non-zero status makes the function raise [CalledProcessError]
    with that status and command. *)
Theorem exit_status_checked_except_in_fuzz (h : Host.host) (u : Fuzzer.utils) :
  (∀ input_corpus output_corpus target_binary w w1 code fs,
     Fuzzer.prepare_fuzz_environment u input_corpus w = Host.Ok () w1 →
     Host.exec h
       ["./afl-fuzz"; "-i"; input_corpus; "-o"; output_corpus; "--";
        target_binary +:+ ".dafl"; "@@"]
       (Host.environ w1) (Host.cwd w1) (Host.files w1) = Some (code, fs) →
     ∃ w2, Fuzzer.fuzz h u input_corpus output_corpus target_binary w = Host.Ok () w2)
  ∧ (∀ w argv env code,
       code ≠ 0%Z →
       Host.Exec argv env (Some code)
         ∈ Host.events_of w (Fuzzer.build_uninstrumented_benchmark h u w) →
       ∃ w', Fuzzer.build_uninstrumented_benchmark h u w
             = Host.Raise (Host.CalledProcessError code argv) w')
  ∧ (∀ w argv env code,
       code ≠ 0%Z →
       Host.Exec argv env (Some code) ∈ Host.events_of w (Fuzzer.instrument_binary h w) →
       ∃ w', Fuzzer.instrument_binary h w
             = Host.Raise (Host.CalledProcessError code argv) w').
Proof.
  split; [|split].
  - intros ic oc tb w w1 code fs Hp He. unfold Fuzzer.fuzz.
    rewrite (HostFacts.bind_Ok _ _ _ _ _ Hp). destruct w1 as [env1 fs1 wd1 tr1].
    host_unfold. host_unfold_in He. rewrite He. by eexists.
  - intros w argv env code Hc. destruct w as [env0 fs wd tr].
    host_run; solve_exit.
  - intros w argv env code Hc. destruct w as [env0 fs wd tr].
    host_run; solve_exit.
Qed.

Lemma exit_status_checked_except_in_fuzz_witness :
  (∃ w2, Fuzzer.fuzz (Sample.sample_host 0 0 0 137)
           (Sample.sample_utils (Sample.sample_host 0 0 0 137))
           "/corpus" "/out/corpus" "/out/sample" (Sample.fuzz_world "sample")
         = Host.Ok () w2)
  ∧ (∃ w', Fuzzer.build_uninstrumented_benchmark (Sample.sample_host 2 0 0 0)
             (Sample.sample_utils (Sample.sample_host 2 0 0 0))
             (Sample.sample_world "/src")
           = Host.Raise (Host.CalledProcessError 2 (Tools.build_argv "/src/build.sh")) w')
  ∧ (∃ w', Fuzzer.instrument_binary (Sample.sample_host 0 3 0 0)
             Sample.uninstrumented_built
           = Host.Raise (Host.CalledProcessError 3
                           (Tools.ddisasm_argv "/out/sample" "sample.gtirb")) w').
Proof.
  split; [|split].
  - apply (proj1 (exit_status_checked_except_in_fuzz (Sample.sample_host 0 0 0 137)
                    (Sample.sample_utils (Sample.sample_host 0 0 0 137)))
             "/corpus" "/out/corpus" "/out/sample" (Sample.fuzz_world "sample")
             (Sample.prepared 137 "sample") 137%Z
             (Host.files (Sample.prepared 137 "sample"))).
    + exact (sample_prepared 137 "sample").
    + reflexivity.
  - apply (proj1 (proj2 (exit_status_checked_except_in_fuzz (Sample.sample_host 2 0 0 0)
                           (Sample.sample_utils (Sample.sample_host 2 0 0 0))))
             (Sample.sample_world "/src") (Tools.build_argv "/src/build.sh")
             (Host.environ Sample.build_script_failed) 2%Z).
    + lia.
    + vm_compute. apply list_elem_of_further, list_elem_of_here.
  - apply (proj2 (proj2 (exit_status_checked_except_in_fuzz (Sample.sample_host 0 3 0 0)
                           (Sample.sample_utils (Sample.sample_host 0 3 0 0))))
             Sample.uninstrumented_built
             (Tools.ddisasm_argv "/out/sample" "sample.gtirb")
             (Host.environ Sample.uninstrumented_built) 3%Z).
    + lia.
    + vm_compute. apply list_elem_of_here.
Defined.

(** ** The environment preparation *)

Module CorpusFacts.
Import Host.

Lemma string_app_nil_r (s : string) : s +:+ EmptyString = s.
Proof.
  induction s as [|c s IH]; [done|].
  change (String c (s +:+ EmptyString) = String c s). by rewrite IH.
Qed.

Lemma string_app_assoc (a b c : string) : (a +:+ b) +:+ c = a +:+ b +:+ c.
Proof.
  induction a as [|x a IH]; [done|].
  change (String x ((a +:+ b) +:+ c) = String x (a +:+ b +:+ c)). by rewrite IH.
Qed.

Lemma startswith_app (p s : string) : Str.startswith p (p +:+ s) = true.
Proof.
  induction p as [|c p IH]; [done|].
  change (Ascii.eqb c c && Str.startswith p (p +:+ s) = true).
  by rewrite Ascii.eqb_refl.
Qed.

Lemma valid_name_relative n : Tools.valid_name n → Str.startswith "/" n = false.
Proof.
  intros [Hne Hslash]. destruct n as [|c n]; [done|].
  change (Ascii.eqb c "/" || Str.mem Str.slash n = false) in Hslash.
  apply orb_false_elim in Hslash as [Hc _].
  change (Ascii.eqb "/" c && true = false).
  by rewrite Ascii.eqb_sym, Hc.
Qed.

(** A file created in a directory has the path of the directory, with a
    final slash, followed by its name. *)
Lemma path_join_name d n :
  Tools.valid_name n → path_join d n = path_join d EmptyString +:+ n.
Proof.
  intros Hn. unfold path_join. rewrite (valid_name_relative n Hn).
  change (Str.startswith "/" EmptyString) with false. cbv iota.
  destruct (String.eqb d EmptyString); [done|].
  destruct (decide _).
  - by rewrite string_app_nil_r.
  - by rewrite !string_app_assoc.
Qed.

(** Such a file is listed in the directory under its name. *)
Lemma entry_name_join d n :
  Tools.valid_name n → entry_name (path_join d EmptyString) (path_join d n) = Some n.
Proof.
  intros Hn. rewrite (path_join_name d n Hn). unfold entry_name.
  rewrite startswith_app, StrFacts.drop_app_length.
  destruct Hn as [Hne Hslash]. rewrite (StrFacts.split_no_sep_id _ _ Hslash).
  destruct (String.eqb n EmptyString) eqn:E; [|done].
  by apply String.eqb_eq in E.
Qed.

(** Creating a file in a directory adds its name to the listing. *)
Lemma listdir_insert fs d n f :
  Tools.valid_name n →
  listdir (<[path_join d n := f]> fs) d = {[n]} ∪ listdir fs d.
Proof.
  intros Hn. unfold listdir.
  rewrite dom_insert_L, set_omap_union_L, set_omap_singleton_L.
  by rewrite (entry_name_join d n Hn).
Qed.

(** The six settings of the preparation are already in the environment
    that it leaves. *)
Lemma afl_environ_idem (env : gmap string string) :
  let env' :=
    <["AFL_SHUFFLE_QUEUE" := "1"]> (<["AFL_SKIP_CRASHES" := "1"]>
      (<["AFL_I_DONT_CARE_ABOUT_MISSING_CRASHES" := "1"]> (<["AFL_NO_AFFINITY" := "1"]>
        (<["AFL_SKIP_CPUFREQ" := "1"]> (<["AFL_NO_UI" := "1"]> env))))) in
  <["AFL_SHUFFLE_QUEUE" := "1"]> (<["AFL_SKIP_CRASHES" := "1"]>
    (<["AFL_I_DONT_CARE_ABOUT_MISSING_CRASHES" := "1"]> (<["AFL_NO_AFFINITY" := "1"]>
      (<["AFL_SKIP_CPUFREQ" := "1"]> (<["AFL_NO_UI" := "1"]> env'))))) = env'.
Proof.
  intros env'.
  assert (∀ k, k ∈ ["AFL_NO_UI"; "AFL_SKIP_CPUFREQ"; "AFL_NO_AFFINITY";
                    "AFL_I_DONT_CARE_ABOUT_MISSING_CRASHES"; "AFL_SKIP_CRASHES";
                    "AFL_SHUFFLE_QUEUE"] → <[k := "1"]> env' = env') as Hid.
  { intros k Hk. apply insert_id. subst env'.
    repeat (apply elem_of_cons in Hk as [->|Hk]);
      [by rewrite ?lookup_insert_ne by done; rewrite lookup_insert_eq..|].
    by apply elem_of_nil in Hk. }
  rewrite !Hid; [done|..]; set_solver.
Qed.

End CorpusFacts.

(** C7. With the helper as the spec has it: when the input-corpus
    directory is empty before [prepare_fuzz_environment] runs, the
    preparation returns, and afterwards the directory lists exactly one
    file, the placeholder seed, whose content is not empty. *)
Theorem empty_corpus_gets_one_seed (h : Host.host) (flags : list string)
    (flag seed_name seed_data input_corpus : string) (w : Host.world) :
  Tools.valid_name seed_name → seed_data ≠ EmptyString →
  Host.listdir (Host.files w) (Host.resolve (Host.cwd w) input_corpus) = ∅ →
  ∃ w',
    Fuzzer.prepare_fuzz_environment
      (Fuzzer.Utils flags flag (Fuzzer.spec_create_seed_file h seed_name seed_data))
      input_corpus w = Host.Ok () w'
    ∧ Host.listdir (Host.files w') (Host.resolve (Host.cwd w) input_corpus)
      = {[seed_name]}
    ∧ ∃ f, Host.files w'
             !! Host.path_join (Host.resolve (Host.cwd w) input_corpus) seed_name
           = Some f
           ∧ Host.f_data f ≠ EmptyString.
Proof.
  intros Hname Hdata Hempty. destruct w as [env fs wd tr].
  host_unfold_in Hempty. host_unfold. seed_unfold.
  rewrite decide_True by done. eexists. split; [reflexivity|]. seed_unfold.
  split.
  - rewrite CorpusFacts.listdir_insert by done. rewrite Hempty.
    by rewrite (right_id_L ∅ (∪)).
  - eexists. by rewrite lookup_insert_eq.
Qed.

Lemma empty_corpus_gets_one_seed_witness :
  ∃ w',
    Fuzzer.prepare_fuzz_environment (Sample.sample_utils (Sample.sample_host 0 0 0 0))
      "/corpus" (Sample.fuzz_world "sample") = Host.Ok () w'
    ∧ Host.listdir (Host.files w') "/corpus" = {[ "default_seed" ]}
    ∧ ∃ f, Host.files w' !! "/corpus/default_seed" = Some f
           ∧ Host.f_data f ≠ EmptyString.
Proof.
  apply (empty_corpus_gets_one_seed (Sample.sample_host 0 0 0 0)
           ["-pthread"; "-Wl,--no-as-needed"] "-stdlib=libc++"
           "default_seed" "hi" "/corpus" (Sample.fuzz_world "sample")).
  - split; [discriminate|reflexivity].
  - discriminate.
  - vm_compute. reflexivity.
Defined.

(** C8. With the helper as the spec has it, [prepare_fuzz_environment] is
    idempotent: it returns, and run again on the same input corpus in the
    world it has left, it returns in that very world, environment table and
    corpus directory included; in that world each of the six variables it
    sets has the value [1], which the second run has set again. *)
Theorem prepare_fuzz_environment_idempotent (h : Host.host) (flags : list string)
    (flag seed_name seed_data input_corpus : string) (w : Host.world) :
  Tools.valid_name seed_name →
  let u := Fuzzer.Utils flags flag (Fuzzer.spec_create_seed_file h seed_name seed_data) in
  ∃ w1,
    Fuzzer.prepare_fuzz_environment u input_corpus w = Host.Ok () w1
    ∧ Fuzzer.prepare_fuzz_environment u input_corpus w1 = Host.Ok () w1
    ∧ Forall (λ k, Host.environ w1 !! k = Some "1")
        ["AFL_NO_UI"; "AFL_SKIP_CPUFREQ"; "AFL_NO_AFFINITY";
         "AFL_I_DONT_CARE_ABOUT_MISSING_CRASHES"; "AFL_SKIP_CRASHES";
         "AFL_SHUFFLE_QUEUE"].
Proof.
  intros Hname u. subst u. destruct w as [env fs wd tr].
  host_unfold. seed_unfold.
  destruct (decide (Host.listdir fs (Host.resolve wd input_corpus) = ∅)) as [He|Hne].
  - eexists. split; [reflexivity|]. host_unfold. seed_unfold. split.
    + rewrite decide_False.
      * by rewrite (CorpusFacts.afl_environ_idem env).
      * rewrite CorpusFacts.listdir_insert by done. set_solver.
    + repeat constructor; by rewrite ?lookup_insert_ne by done; rewrite lookup_insert_eq.
  - eexists. split; [reflexivity|]. host_unfold. seed_unfold. split.
    + rewrite decide_False by done.
      by rewrite (CorpusFacts.afl_environ_idem env).
    + repeat constructor; by rewrite ?lookup_insert_ne by done; rewrite lookup_insert_eq.
Qed.

Lemma prepare_fuzz_environment_idempotent_witness :
  ∃ w1,
    Fuzzer.prepare_fuzz_environment (Sample.sample_utils (Sample.sample_host 0 0 0 0))
      "/corpus" (Sample.fuzz_world "sample") = Host.Ok () w1
    ∧ Fuzzer.prepare_fuzz_environment (Sample.sample_utils (Sample.sample_host 0 0 0 0))
        "/corpus" w1 = Host.Ok () w1
    ∧ Forall (λ k, Host.environ w1 !! k = Some "1")
        ["AFL_NO_UI"; "AFL_SKIP_CPUFREQ"; "AFL_NO_AFFINITY";
         "AFL_I_DONT_CARE_ABOUT_MISSING_CRASHES"; "AFL_SKIP_CRASHES";
         "AFL_SHUFFLE_QUEUE"].
Proof.
  apply (prepare_fuzz_environment_idempotent (Sample.sample_host 0 0 0 0)
           ["-pthread"; "-Wl,--no-as-needed"] "-stdlib=libc++"
           "default_seed" "hi" "/corpus" (Sample.fuzz_world "sample")).
  split; [discriminate|reflexivity].
Defined.

(* ================================================================== *)
(** * Further properties of the code *)

(** ** The rewriting done by the wrapper script, on whole files *)

Module RewriteFacts.
Import Str Sed.

(** Joining undoes splitting. *)
Lemma join_split sep s : join sep (split sep s) = s.
Proof.
  induction s as [|c s IH]; [done|].
  pose proof (StrFacts.split_nonempty sep s) as Hne.
  cbn [split]. destruct (Ascii.eqb c sep) eqn:E.
  - apply Ascii.eqb_eq in E as ->.
    destruct (split sep s) as [|seg segs]; [done|].
    change (String sep (join sep (seg :: segs)) = String sep s). by rewrite IH.
  - destruct (split sep s) as [|seg [|seg' segs]]; [done| |].
    + change (String c seg = String c s). by rewrite <- IH.
    + change (String c (join sep (seg :: seg' :: segs)) = String c s).
      by rewrite IH.
Qed.

(** The effect of the script on one line, by cases. *)
Lemma rewrite_line_cases L l :
  Wrapper.rewrite_line L l
  = if String.eqb l Wrapper.dot_text
    then subst_line L Wrapper.cmd_indent Wrapper.tab_dot_text
    else match span L Space l with
         | 0 => l
         | S n => String tab (drop (S n) l)
         end.
Proof.
  rewrite SedFacts.rewrite_line_eq, SedFacts.subst_text.
  destruct (String.eqb l Wrapper.dot_text); [done|apply SedFacts.subst_indent].
Qed.

Lemma rewrite_line_no_lf L l :
  mem lf l = false → mem lf (Wrapper.rewrite_line L l) = false.
Proof.
  intros Hl. rewrite SedFacts.rewrite_line_eq.
  by apply SedFacts.subst_indent_no_lf, SedFacts.subst_text_no_lf.
Qed.

Lemma rewrite_line_nonempty L l :
  Wrapper.rewrite_line L l = EmptyString → l = EmptyString.
Proof.
  rewrite SedFacts.rewrite_line_eq. intros H.
  by apply (SedFacts.subst_text_nonempty L), (SedFacts.subst_indent_nonempty L).
Qed.

Section locale.
Variable L : locale.
Hypothesis HL : locale_ok L.

Lemma dot_text_no_space : Wrapper.begins_with_space L Wrapper.dot_text = false.
Proof. apply SedFacts.begins_false. by apply (space_len_graphic L HL). Qed.

Lemma indent_tab_dot_text :
  subst_line L Wrapper.cmd_indent Wrapper.tab_dot_text = Wrapper.tab_dot_text.
Proof.
  rewrite SedFacts.subst_indent.
  change Wrapper.tab_dot_text with (String tab Wrapper.dot_text).
  by rewrite (SedFacts.span_tab L HL _ dot_text_no_space).
Qed.

Lemma rewrite_line_normalised l : Lines.normalised L (Wrapper.rewrite_line L l).
Proof.
  rewrite rewrite_line_cases.
  destruct (String.eqb l Wrapper.dot_text) eqn:E.
  - rewrite indent_tab_dot_text. split; [done|]. intros _.
    exists ".text". split; [done|apply dot_text_no_space].
  - apply String.eqb_neq in E.
    destruct (span L Space l) as [|n] eqn:Hspan.
    + split; [done|]. intros Hb.
      by rewrite (SedFacts.span_0_begins L HL l Hspan) in Hb.
    + split.
      * by intros [=].
      * intros _. eexists. split; [reflexivity|].
        rewrite <- Hspan. apply (SedFacts.span_rest L HL).
Qed.

Lemma rewrite_line_plain l : Lines.plain L l → Wrapper.rewrite_line L l = l.
Proof.
  intros [Hb Hne]. rewrite rewrite_line_cases.
  apply String.eqb_neq in Hne. unfold Wrapper.dot_text. rewrite Hne.
  by rewrite (SedFacts.span_space_0 L l Hb).
Qed.

Lemma rewrite_line_idem l :
  Wrapper.rewrite_line L (Wrapper.rewrite_line L l) = Wrapper.rewrite_line L l.
Proof.
  destruct (rewrite_line_normalised l) as [Hne Hshape].
  set (l' := Wrapper.rewrite_line L l) in *.
  rewrite (rewrite_line_cases L l').
  apply String.eqb_neq in Hne. unfold Wrapper.dot_text. rewrite Hne.
  destruct (Wrapper.begins_with_space L l') eqn:Hb.
  - destruct (Hshape eq_refl) as (rest & -> & Hrest).
    by rewrite (SedFacts.span_tab L HL rest Hrest).
  - by rewrite (SedFacts.span_space_0 L l' Hb).
Qed.

Lemma rewrite_line_lstrip l :
  Lines.lstrip L (Wrapper.rewrite_line L l) = Lines.lstrip L l.
Proof.
  rewrite rewrite_line_cases. unfold Lines.lstrip.
  destruct (String.eqb l Wrapper.dot_text) eqn:E.
  - apply String.eqb_eq in E. subst l. rewrite indent_tab_dot_text.
    change Wrapper.tab_dot_text with (String tab Wrapper.dot_text).
    rewrite (SedFacts.span_tab L HL _ dot_text_no_space).
    by rewrite (SedFacts.span_space_0 L _ dot_text_no_space).
  - destruct (span L Space l) as [|n] eqn:Hspan; [by rewrite Hspan|].
    pose proof (SedFacts.span_rest L HL l) as H0. rewrite Hspan in H0.
    by rewrite (SedFacts.span_tab L HL _ H0).
Qed.

End locale.

Lemma map_lines_ext f g segs :
  (∀ l, f l = g l) → map_lines f segs = map_lines g segs.
Proof.
  intros Hfg. induction segs as [|seg [|seg' segs] IH]; [done| |].
  - cbn [map_lines]. by rewrite Hfg.
  - change (f seg :: map_lines f (seg' :: segs) = g seg :: map_lines g (seg' :: segs)).
    by rewrite Hfg, IH.
Qed.

(** Mapping the lines twice is mapping them once with the composition,
    when the first function empties no line. *)
Lemma map_lines_compose f g segs :
  (∀ l, f l = EmptyString → l = EmptyString) →
  map_lines g (map_lines f segs) = map_lines (g ∘ f) segs.
Proof.
  intros Hf. induction segs as [|seg [|seg' segs] IH]; [done| |].
  - cbn [map_lines]. destruct (String.eqb seg EmptyString) eqn:E.
    + cbn [map_lines]. by rewrite E.
    + cbn [map_lines]. destruct (String.eqb (f seg) EmptyString) eqn:E'; [|done].
      apply String.eqb_eq, Hf in E'. by subst seg.
  - change (map_lines f (seg :: seg' :: segs))
      with (f seg :: map_lines f (seg' :: segs)).
    change (map_lines (g ∘ f) (seg :: seg' :: segs))
      with (g (f seg) :: map_lines (g ∘ f) (seg' :: segs)).
    rewrite <- IH.
    pose proof (SedFacts.map_lines_nonempty f (seg' :: segs)) as Hne.
    destruct (map_lines f (seg' :: segs)) as [|x xs]; [by destruct Hne|done].
Qed.

(** Lines that a function fixes are left alone by the mapping. *)
Lemma map_lines_fixed f segs :
  Forall (λ l, f l = l) (drop_final_empty segs) → map_lines f segs = segs.
Proof.
  induction segs as [|seg [|seg' segs] IH]; [done| |].
  - cbn [map_lines drop_final_empty].
    destruct (String.eqb seg EmptyString); [done|].
    intros Hall. inversion Hall as [|? ? Hseg _]; subst. by rewrite Hseg.
  - change (drop_final_empty (seg :: seg' :: segs))
      with (seg :: drop_final_empty (seg' :: segs)).
    intros Hall. inversion Hall as [|? ? Hseg Hrest]; subst.
    change (f seg :: map_lines f (seg' :: segs) = seg :: seg' :: segs).
    by rewrite Hseg, IH.
Qed.

(** The script maps the lines of the file, and keeps whether the file
    ends with a line feed. *)
Lemma rewrite_file_eq L text :
  Wrapper.rewrite_file L text
  = join lf (map_lines (Wrapper.rewrite_line L) (split lf text)).
Proof.
  unfold Wrapper.rewrite_file. rewrite SedFacts.sed_commands_eq. cbn [foldl].
  unfold sed_inplace at 1 2.
  rewrite StrFacts.split_join.
  - rewrite (map_lines_compose _ _ _ (SedFacts.subst_text_nonempty L)).
    apply (f_equal (join lf)), map_lines_ext. intros l. simpl.
    by rewrite SedFacts.rewrite_line_eq.
  - apply SedFacts.map_lines_nonempty, StrFacts.split_nonempty.
  - apply SedFacts.map_lines_no_lf; [apply SedFacts.subst_text_no_lf|].
    apply StrFacts.split_no_sep.
Qed.

End RewriteFacts.

(** X1. In every locale the wrapper script's rewrite touches leading
    whitespace only: the rewritten file has as many lines as the
    original, and each line without its leading whitespace is the
    original line without its leading whitespace. *)
Theorem wrapper_keeps_line_content (L : Sed.locale) (text : string) :
  Sed.locale_ok L →
  Lines.lstrip L <$> Sed.file_lines (Wrapper.rewrite_file L text)
  = Lines.lstrip L <$> Sed.file_lines text.
Proof.
  intros HL. rewrite SedFacts.file_lines_rewrite, <- list_fmap_compose.
  apply list_fmap_ext. intros i l _. by apply RewriteFacts.rewrite_line_lstrip.
Qed.

Lemma wrapper_keeps_line_content_witness :
  Lines.lstrip Sed.wide_locale
    <$> Sed.file_lines (Wrapper.rewrite_file Sed.wide_locale Cases.wide_asm)
  = ["nop"; "main:"; "ret"].
Proof.
  rewrite (wrapper_keeps_line_content Sed.wide_locale Cases.wide_asm
             SedFacts.wide_locale_ok).
  reflexivity.
Defined.

(** X2. In every locale, after the wrapper script's rewrite no line of
    the file is the bare [.text], and every line that begins with
    whitespace begins with exactly one tab followed by something that is
    not whitespace. *)
Theorem wrapper_output_normalised (L : Sed.locale) (text : string) :
  Sed.locale_ok L →
  Forall (Lines.normalised L) (Sed.file_lines (Wrapper.rewrite_file L text)).
Proof.
  intros HL. rewrite SedFacts.file_lines_rewrite. apply Forall_fmap, Forall_forall.
  intros l _. by apply RewriteFacts.rewrite_line_normalised.
Qed.

Lemma wrapper_output_normalised_witness :
  Forall (Lines.normalised Sed.wide_locale)
         (Sed.file_lines (Wrapper.rewrite_file Sed.wide_locale Cases.wide_asm)).
Proof.
  apply (wrapper_output_normalised Sed.wide_locale Cases.wide_asm).
  exact SedFacts.wide_locale_ok.
Defined.

(** X3. In every locale the wrapper script's rewrite is idempotent on
    the text of the file: running the two substitutions again on a
    rewritten file changes nothing. *)
Theorem wrapper_rewrite_idempotent (L : Sed.locale) (text : string) :
  Sed.locale_ok L →
  Wrapper.rewrite_file L (Wrapper.rewrite_file L text)
  = Wrapper.rewrite_file L text.
Proof.
  intros HL.
  rewrite (RewriteFacts.rewrite_file_eq L (Wrapper.rewrite_file L text)).
  rewrite (RewriteFacts.rewrite_file_eq L text).
  rewrite StrFacts.split_join.
  - rewrite (RewriteFacts.map_lines_compose _ _ _
               (RewriteFacts.rewrite_line_nonempty L)).
    f_equal. apply RewriteFacts.map_lines_ext. intros l.
    by apply RewriteFacts.rewrite_line_idem.
  - apply SedFacts.map_lines_nonempty, StrFacts.split_nonempty.
  - apply SedFacts.map_lines_no_lf; [apply RewriteFacts.rewrite_line_no_lf|].
    apply StrFacts.split_no_sep.
Qed.

Lemma wrapper_rewrite_idempotent_witness :
  Wrapper.rewrite_file Sed.wide_locale
    (Wrapper.rewrite_file Sed.wide_locale Cases.wide_asm)
  = Wrapper.rewrite_file Sed.wide_locale Cases.wide_asm.
Proof.
  apply (wrapper_rewrite_idempotent Sed.wide_locale Cases.wide_asm).
  exact SedFacts.wide_locale_ok.
Defined.

(** X4. In every locale, a file none of whose lines begins with
    whitespace or is the bare [.text] is left exactly as it is by the
    wrapper script's rewrite, final line feed included. *)
Theorem wrapper_leaves_plain_file (L : Sed.locale) (text : string) :
  Sed.locale_ok L →
  Forall (Lines.plain L) (Sed.file_lines text) →
  Wrapper.rewrite_file L text = text.
Proof.
  intros HL Hplain. rewrite RewriteFacts.rewrite_file_eq.
  rewrite RewriteFacts.map_lines_fixed; [apply RewriteFacts.join_split|].
  eapply Forall_impl; [exact Hplain|]. apply RewriteFacts.rewrite_line_plain.
Qed.

Lemma wrapper_leaves_plain_file_witness :
  Wrapper.rewrite_file Sed.wide_locale Cases.plain_asm = Cases.plain_asm.
Proof.
  apply (wrapper_leaves_plain_file Sed.wide_locale Cases.plain_asm).
  - exact SedFacts.wide_locale_ok.
  - repeat constructor; discriminate.
Defined.

(** ** Missing variables and files *)

(** X5. [instrument_binary] needs [FUZZ_TARGET] and [OUT]: when
    [FUZZ_TARGET] is not set it raises [TypeError] (the [None] that
    [os.getenv] returns cannot be concatenated), and when [FUZZ_TARGET] is
    set but [OUT] is not it raises [KeyError] for [OUT]; either way it has
    run no child and written no file: the world is as it was. *)
Theorem instrument_binary_needs_variables (h : Host.host) (w : Host.world) :
  Host.environ w !! "FUZZ_TARGET" = None ∨ Host.environ w !! "OUT" = None →
  Fuzzer.instrument_binary h w
  = Host.Raise (match Host.environ w !! "FUZZ_TARGET" with
                | None => Host.TypeError
                | Some _ => Host.KeyError "OUT"
                end) w.
Proof.
  destruct w as [env fs wd tr]. host_unfold.
  destruct (env !! "FUZZ_TARGET") as [target|] eqn:Ht; [|done].
  intros [Hv|Hv]; [done|]. host_unfold. by rewrite Hv.
Qed.

Lemma instrument_binary_needs_variables_witness :
  Fuzzer.instrument_binary (Sample.sample_host 0 0 0 0) Cases.no_out_world
  = Host.Raise (Host.KeyError "OUT") Cases.no_out_world.
Proof.
  apply (instrument_binary_needs_variables (Sample.sample_host 0 0 0 0)
           Cases.no_out_world).
  right. reflexivity.
Defined.

(** X6. [build_uninstrumented_benchmark] raises without running the build
    script, or any other child, when [SRC] is not set or the stub library
    [/libStandaloneFuzzTarget.a] does not exist. *)
Theorem uninstrumented_build_needs_inputs (h : Host.host) (u : Fuzzer.utils)
    (w : Host.world) :
  Host.environ w !! "SRC" = None ∨ Host.files w !! Tools.fuzzer_lib = None →
  ∃ e w',
    Fuzzer.build_uninstrumented_benchmark h u w = Host.Raise e w'
    ∧ Forall (λ ev, Vars.is_exec ev = false)
        (Host.events_of w (Fuzzer.build_uninstrumented_benchmark h u w)).
Proof.
  destruct w as [env fs wd tr]. host_unfold. intros [Hv|Hv];
    host_run; (try discriminate);
    do 2 eexists; (split; [reflexivity|]);
    host_unfold; rewrite <- ?app_assoc; rewrite ?drop_app_length, ?drop_all;
    repeat constructor.
Qed.

Lemma uninstrumented_build_needs_inputs_witness :
  ∃ e w',
    Fuzzer.build_uninstrumented_benchmark (Sample.sample_host 0 0 0 0)
      (Sample.sample_utils (Sample.sample_host 0 0 0 0)) Cases.no_src_world
    = Host.Raise e w'
    ∧ Forall (λ ev, Vars.is_exec ev = false)
        (Host.events_of Cases.no_src_world
           (Fuzzer.build_uninstrumented_benchmark (Sample.sample_host 0 0 0 0)
              (Sample.sample_utils (Sample.sample_host 0 0 0 0)) Cases.no_src_world)).
Proof.
  apply (uninstrumented_build_needs_inputs (Sample.sample_host 0 0 0 0)
           (Sample.sample_utils (Sample.sample_host 0 0 0 0)) Cases.no_src_world).
  left. reflexivity.
Defined.

(** ** The order and the paths of the instrumentation pipeline *)

(** Settles the membership of a given event in an explicit list, by the
    program it runs. *)
Ltac pick_event Hin Hruns :=
  repeat (apply elem_of_cons in Hin as [->|Hin]; [try (by vm_compute in Hruns)|]);
  try (by apply elem_of_nil in Hin).

(** X7. Whenever [instrument_binary] requests [gtirb-pprinter], it has
    done exactly this before, in this order: it ran [ddisasm] on
    [$OUT/$FUZZ_TARGET], which exited with status 0, wrote the wrapper and
    made it executable. The two programs are given the same IR path
    [$FUZZ_TARGET.gtirb], and the binary that [gtirb-pprinter] is to write
    is the path of the binary that [ddisasm] read with [.dafl] appended. *)
Theorem pprinter_requested_after_ddisasm (h : Host.host) (w : Host.world)
    (ev : Host.event) :
  ev ∈ Host.events_of w (Fuzzer.instrument_binary h w) →
  Tools.runs "gtirb-pprinter" ev = true →
  ∃ target out st,
    Host.environ w !! "FUZZ_TARGET" = Some target
    ∧ Host.environ w !! "OUT" = Some out
    ∧ let binary := (out +:+ "/") +:+ target in
      let ir := target +:+ ".gtirb" in
      Host.events_of w (Fuzzer.instrument_binary h w)
      = [Host.Exec (Tools.ddisasm_argv binary ir) (Host.environ w) (Some 0%Z);
         Host.Wrote Tools.assembler;
         Host.Chmod Tools.assembler 511;
         Host.Exec (Tools.pprinter_argv ir (binary +:+ ".dafl") Tools.assembler)
                   (Host.environ w) st].
Proof.
  destruct w as [env fs wd tr].
  host_run; rewrite <- ?app_assoc; rewrite ?drop_app_length, ?drop_all;
    intros Hin Hruns; pick_event Hin Hruns;
    do 3 eexists; (split; [reflexivity|]); (split; [reflexivity|]);
    cbv zeta; by rewrite <- CorpusFacts.string_app_assoc.
Qed.

Lemma pprinter_requested_after_ddisasm_witness :
  ∃ target out st,
    Host.environ (Sample.sample_world "/src") !! "FUZZ_TARGET" = Some target
    ∧ Host.environ (Sample.sample_world "/src") !! "OUT" = Some out
    ∧ Host.events_of (Sample.sample_world "/src")
        (Fuzzer.instrument_binary (Sample.sample_host 0 0 7 0) (Sample.sample_world "/src"))
      = [Host.Exec (Tools.ddisasm_argv ((out +:+ "/") +:+ target) (target +:+ ".gtirb"))
                   (Host.environ (Sample.sample_world "/src")) (Some 0%Z);
         Host.Wrote Tools.assembler;
         Host.Chmod Tools.assembler 511;
         Host.Exec (Tools.pprinter_argv (target +:+ ".gtirb")
                      (((out +:+ "/") +:+ target) +:+ ".dafl") Tools.assembler)
                   (Host.environ (Sample.sample_world "/src")) st].
Proof.
  apply (pprinter_requested_after_ddisasm (Sample.sample_host 0 0 7 0)
           (Sample.sample_world "/src")
           (Host.Exec (Tools.pprinter_argv "sample.gtirb" "/out/sample.dafl"
                         Tools.assembler)
                      Sample.sample_environ (Some 7%Z))).
  - vm_compute. do 3 apply list_elem_of_further. apply list_elem_of_here.
  - reflexivity.
Defined.

(** X8. [instrument_binary] never changes the environment table or the
    working directory, whether it returns or raises. *)
Theorem instrument_binary_keeps_environ (h : Host.host) (w : Host.world) :
  Host.environ (Host.world_of (Fuzzer.instrument_binary h w)) = Host.environ w
  ∧ Host.cwd (Host.world_of (Fuzzer.instrument_binary h w)) = Host.cwd w.
Proof. destruct w as [env fs wd tr]. host_run; done. Qed.

(** ** The environment of the build *)

Module BuildEnvFacts.

Lemma not_build_variable k :
  k ∉ Vars.build_variables →
  k ≠ "CC" ∧ k ≠ "CXX" ∧ k ≠ "CFLAGS" ∧ k ≠ "CXXFLAGS" ∧ k ≠ "FUZZER_LIB".
Proof.
  unfold Vars.build_variables. rewrite !not_elem_of_cons. tauto.
Qed.

(** The table after the five assignments. *)
Lemma build_environ_spec (env : gmap string string) a b c d e :
  let env' :=
    <["FUZZER_LIB" := e]> (<["CXXFLAGS" := d]> (<["CFLAGS" := c]>
      (<["CXX" := b]> (<["CC" := a]> env)))) in
  env' !! "CC" = Some a ∧ env' !! "CXX" = Some b ∧ env' !! "CFLAGS" = Some c
  ∧ env' !! "CXXFLAGS" = Some d ∧ env' !! "FUZZER_LIB" = Some e
  ∧ ∀ k, k ∉ Vars.build_variables → env' !! k = env !! k.
Proof.
  intros env'. subst env'.
  repeat split; try (by rewrite ?lookup_insert_ne by done; rewrite lookup_insert_eq).
  intros k (? & ? & ? & ? & ?)%not_build_variable.
  by apply EnvFacts.build_environ_lookup.
Qed.

(** The table that [build_uninstrumented_benchmark] leaves, in every
    outcome. *)
Lemma uninstrumented_environ h u w :
  Host.environ (Host.world_of (Fuzzer.build_uninstrumented_benchmark h u w))
  = <["FUZZER_LIB" := "/libStandaloneFuzzTarget.a"]>
      (<["CXXFLAGS" := Str.unwords (Fuzzer.LIBCPLUSPLUS_FLAG u
                                    :: Fuzzer.NO_SANITIZER_COMPAT_CFLAGS u)]>
         (<["CFLAGS" := Str.unwords (Fuzzer.NO_SANITIZER_COMPAT_CFLAGS u)]>
            (<["CXX" := "clang++"]> (<["CC" := "clang"]> (Host.environ w)))))
  ∧ Host.cwd (Host.world_of (Fuzzer.build_uninstrumented_benchmark h u w))
    = Host.cwd w.
Proof. destruct w as [env0 fs wd tr]. host_run; done. Qed.

End BuildEnvFacts.

(** X9. The build script is the only child of
    [build_uninstrumented_benchmark], it is [/bin/bash -ex $SRC/build.sh],
    and the environment it is given has [CC = clang], [CXX = clang++],
    [CFLAGS] the flags of [NO_SANITIZER_COMPAT_CFLAGS] joined by spaces,
    [CXXFLAGS] the same with [LIBCPLUSPLUS_FLAG] in front,
    [FUZZER_LIB = /libStandaloneFuzzTarget.a], and every other variable as
    the caller had it. *)
Theorem build_script_environment (h : Host.host) (u : Fuzzer.utils)
    (w : Host.world) (argv : list string) (env : gmap string string)
    (st : option Z) :
  Host.Exec argv env st
    ∈ Host.events_of w (Fuzzer.build_uninstrumented_benchmark h u w) →
  ∃ src,
    Host.environ w !! "SRC" = Some src
    ∧ argv = ["/bin/bash"; "-ex"; Host.path_join src "build.sh"]
    ∧ env !! "CC" = Some "clang"
    ∧ env !! "CXX" = Some "clang++"
    ∧ env !! "CFLAGS" = Some (Str.unwords (Fuzzer.NO_SANITIZER_COMPAT_CFLAGS u))
    ∧ env !! "CXXFLAGS"
      = Some (Str.unwords (Fuzzer.LIBCPLUSPLUS_FLAG u
                           :: Fuzzer.NO_SANITIZER_COMPAT_CFLAGS u))
    ∧ env !! "FUZZER_LIB" = Some "/libStandaloneFuzzTarget.a"
    ∧ ∀ k, k ∉ Vars.build_variables → env !! k = Host.environ w !! k.
Proof.
  destruct w as [env0 fs wd tr].
  host_run; rewrite <- ?app_assoc; rewrite ?drop_app_length, ?drop_all;
    intros Hin;
    repeat (apply elem_of_cons in Hin as [Hin|Hin]; [try discriminate Hin|]);
    try (by apply elem_of_nil in Hin);
    injection Hin as -> -> ->;
    eexists; (split; [reflexivity|]); (split; [reflexivity|]);
    apply (BuildEnvFacts.build_environ_spec env0).
Qed.

Lemma build_script_environment_witness :
  ∃ src,
    Host.environ (Sample.sample_world "/src") !! "SRC" = Some src
    ∧ Tools.build_argv "/src/build.sh"
      = ["/bin/bash"; "-ex"; Host.path_join src "build.sh"]
    ∧ Host.environ Sample.build_script_failed !! "CC" = Some "clang"
    ∧ Host.environ Sample.build_script_failed !! "CXX" = Some "clang++"
    ∧ Host.environ Sample.build_script_failed !! "CFLAGS"
      = Some (Str.unwords ["-pthread"; "-Wl,--no-as-needed"])
    ∧ Host.environ Sample.build_script_failed !! "CXXFLAGS"
      = Some (Str.unwords ["-stdlib=libc++"; "-pthread"; "-Wl,--no-as-needed"])
    ∧ Host.environ Sample.build_script_failed !! "FUZZER_LIB"
      = Some "/libStandaloneFuzzTarget.a"
    ∧ ∀ k, k ∉ Vars.build_variables →
           Host.environ Sample.build_script_failed !! k
           = Host.environ (Sample.sample_world "/src") !! k.
Proof.
  apply (build_script_environment (Sample.sample_host 2 0 0 0)
           (Sample.sample_utils (Sample.sample_host 2 0 0 0))
           (Sample.sample_world "/src") (Tools.build_argv "/src/build.sh")
           (Host.environ Sample.build_script_failed) (Some 2%Z)).
  vm_compute. apply list_elem_of_further, list_elem_of_here.
Defined.

(** X10. Whether it returns or raises,
    [build_uninstrumented_benchmark] leaves the five variables [CC], [CXX],
    [CFLAGS], [CXXFLAGS] and [FUZZER_LIB] assigned in the environment table
    of the process, every other variable as it was, and the working
    directory as it was. *)
Theorem uninstrumented_build_environ (h : Host.host) (u : Fuzzer.utils)
    (w : Host.world) :
  let w' := Host.world_of (Fuzzer.build_uninstrumented_benchmark h u w) in
  Host.cwd w' = Host.cwd w
  ∧ Host.environ w' !! "CC" = Some "clang"
  ∧ Host.environ w' !! "CXX" = Some "clang++"
  ∧ Host.environ w' !! "CFLAGS"
    = Some (Str.unwords (Fuzzer.NO_SANITIZER_COMPAT_CFLAGS u))
  ∧ Host.environ w' !! "CXXFLAGS"
    = Some (Str.unwords (Fuzzer.LIBCPLUSPLUS_FLAG u
                         :: Fuzzer.NO_SANITIZER_COMPAT_CFLAGS u))
  ∧ Host.environ w' !! "FUZZER_LIB" = Some "/libStandaloneFuzzTarget.a"
  ∧ (∀ k, k ∉ Vars.build_variables → Host.environ w' !! k = Host.environ w !! k).
Proof.
  intros w'. subst w'.
  destruct (BuildEnvFacts.uninstrumented_environ h u w) as [-> ->].
  split; [done|]. apply BuildEnvFacts.build_environ_spec.
Qed.

(** ** What the build leaves for the fuzz run *)

Module LayoutFacts.
Import Host.

(** After a successful [instrument_binary], when a successful
    [gtirb-pprinter] leaves the binary it was asked for, the instrumented
    binary is in place. *)
Lemma instrument_ok_binary h w w2 :
  (∀ ir out, Tools.pprinter_contract h ir out (λ _, False)) →
  Fuzzer.instrument_binary h w = Ok () w2 →
  ∃ target out,
    environ w !! "FUZZ_TARGET" = Some target
    ∧ environ w !! "OUT" = Some out
    ∧ is_Some (files w2 !! resolve (cwd w) ((out +:+ "/") +:+ (target +:+ ".dafl"))).
Proof.
  intros Hp. destruct w as [env fs wd tr].
  host_run; try discriminate; intros [= <-];
    do 2 eexists; (split; [reflexivity|]); (split; [reflexivity|]);
    host_unfold;
    match goal with
    | H : exec h ("gtirb-pprinter" :: _) _ _ _ = Some (0%Z, _) |- _ =>
        refine (proj1 (Hp _ _ _ _ _ _ _ H)); apply lookup_insert_eq
    end.
Qed.

(** The helper of the spec leaves the environment table alone. *)
Lemma spec_seed_keeps_environ h name data input_corpus :
  Vars.keeps_environ (Fuzzer.spec_create_seed_file h name data input_corpus).
Proof.
  intros [env fs wd tr]. seed_unfold. by case_decide.
Qed.

(** With the helper of the spec, the preparation returns in the world it
    leaves. *)
Lemma prepare_spec_world h flags flag name data input_corpus w :
  Fuzzer.prepare_fuzz_environment
    (Fuzzer.Utils flags flag (Fuzzer.spec_create_seed_file h name data))
    input_corpus w
  = Ok () (world_of (Fuzzer.prepare_fuzz_environment
                       (Fuzzer.Utils flags flag
                          (Fuzzer.spec_create_seed_file h name data))
                       input_corpus w)).
Proof.
  destruct (PrepareFacts.prepare_spec_returns h flags flag name data input_corpus w)
    as [w' ->].
  reflexivity.
Qed.

End LayoutFacts.

(** X11. A successful [build], when a successful [gtirb-pprinter]
    started with the wrapper script in place leaves the binary it was
    asked for (nothing is assumed about what else the tools do), leaves in
    place what the fuzz run needs: the instrumented binary
    [$OUT/$FUZZ_TARGET.dafl] and the engine driver, copied into [$OUT]
    when that is a directory; the copy is the file at [/src/afl/afl-fuzz],
    content and mode. *)
Theorem build_leaves_fuzz_inputs (h : Host.host) (u : Fuzzer.utils)
    (w w' : Host.world) :
  (∀ ir out, Tools.pprinter_contract h ir out (λ _, False)) →
  Fuzzer.build h u w = Host.Ok () w' →
  ∃ target out,
    Host.environ w !! "FUZZ_TARGET" = Some target
    ∧ Host.environ w !! "OUT" = Some out
    ∧ is_Some (Host.files w'
                 !! Host.resolve (Host.cwd w) ((out +:+ "/") +:+ (target +:+ ".dafl")))
    ∧ is_Some (Host.files w'
                 !! (if Host.isdir h (Host.resolve (Host.cwd w) out)
                     then Host.path_join (Host.resolve (Host.cwd w) out) "afl-fuzz"
                     else Host.resolve (Host.cwd w) out))
    ∧ Host.files w'
        !! (if Host.isdir h (Host.resolve (Host.cwd w) out)
            then Host.path_join (Host.resolve (Host.cwd w) out) "afl-fuzz"
            else Host.resolve (Host.cwd w) out)
      = Host.files w' !! Tools.driver.
Proof.
  intros Hp Hrun. destruct w as [env fs wd tr]. unfold Fuzzer.build in Hrun.
  destruct (Fuzzer.build_uninstrumented_benchmark h u (Host.World env fs wd tr))
    as [[] w1|e w1] eqn:Hb;
    [|by rewrite (HostFacts.bind_Raise _ _ _ _ _ Hb) in Hrun].
  rewrite (HostFacts.bind_Ok _ _ _ _ _ Hb) in Hrun.
  destruct (Fuzzer.instrument_binary h w1) as [[] w2|e w2] eqn:Hi;
    [|by rewrite (HostFacts.bind_Raise _ _ _ _ _ Hi) in Hrun].
  rewrite (HostFacts.bind_Ok _ _ _ _ _ Hi) in Hrun.
  apply BuildFacts.uninstrumented_ok in Hb
    as (src & benv & lib_dst & fs1 & Hsrc & -> & Hout & Htgt).
  pose proof (LayoutFacts.instrument_ok_binary h _ _ Hp Hi)
    as (target & out & Ht & Ho & Hbin).
  apply InstrumentFacts.instrument_ok in Hi as (target' & out' & fs2 & _ & _ & ->).
  host_unfold_in Ht. host_unfold_in Ho. host_unfold_in Hbin.
  rewrite Htgt in Ht. rewrite Hout in Ho.
  exists target, out. do 2 (split; [done|]).
  revert Hrun. host_unfold. rewrite Hout, Ho. host_simpl.
  repeat (inner_case; host_simpl); try discriminate; intros [= <-]; host_unfold;
    (split; [rewrite lookup_insert; case_decide; [by eexists|done]|]);
    (split; [rewrite lookup_insert_eq; by eexists|]);
    match goal with
    | Hf : _ !! "/src/afl/afl-fuzz" = Some _,
      Hne : String.eqb "/src/afl/afl-fuzz" _ = false |- _ =>
        apply String.eqb_neq in Hne;
        rewrite lookup_insert_eq, lookup_insert_ne, Hf;
        [reflexivity|intros Heq; by apply Hne]
    end.
Qed.

Lemma build_leaves_fuzz_inputs_witness :
  ∃ target out,
    Host.environ (Sample.sample_world "/src") !! "FUZZ_TARGET" = Some target
    ∧ Host.environ (Sample.sample_world "/src") !! "OUT" = Some out
    ∧ is_Some (Host.files Sample.built
                 !! Host.resolve "/src" ((out +:+ "/") +:+ (target +:+ ".dafl")))
    ∧ Host.files Sample.built !! Host.path_join out "afl-fuzz"
      = Some (Host.File "AFL" 493).
Proof.
  destruct (build_leaves_fuzz_inputs (Sample.sample_host 0 0 0 0)
              (Sample.sample_utils (Sample.sample_host 0 0 0 0))
              (Sample.sample_world "/src") Sample.built
              (λ ir out, sample_pprinter_contract 0 0 0 0 ir out _)
              sample_built)
    as (target & out & Ht & Ho & Hbin & _ & Hcopy).
  exists target, out. split; [exact Ht|]. split; [exact Ho|].
  split; [exact Hbin|].
  assert (out = "/out") as -> by (vm_compute in Ho; congruence).
  exact Hcopy.
Defined.

(** ** The environment and the command line of the engine *)

(** X12. When the seed helper leaves the environment table alone, [fuzz]
    starts the engine with each of the six [AFL_] variables of
    [prepare_fuzz_environment] set to [1] and every other variable as the
    caller of [fuzz] had it. *)
Theorem engine_environment (h : Host.host) (u : Fuzzer.utils)
    (input_corpus output_corpus target_binary : string) (w w1 : Host.world) :
  Vars.keeps_environ (Fuzzer.create_seed_file_for_empty_corpus u input_corpus) →
  Fuzzer.prepare_fuzz_environment u input_corpus w = Host.Ok () w1 →
  ∃ env st,
    Host.events_of w1 (Fuzzer.fuzz h u input_corpus output_corpus target_binary w)
    = [Host.Exec (Tools.afl_fuzz_argv input_corpus output_corpus
                    (target_binary +:+ ".dafl")) env st]
    ∧ Forall (λ k, env !! k = Some "1") Vars.afl_variables
    ∧ ∀ k, k ∉ Vars.afl_variables → env !! k = Host.environ w !! k.
Proof.
  intros Hkeep Hp. exists (Host.environ w1).
  assert (Host.environ w1
          = <["AFL_SHUFFLE_QUEUE" := "1"]> (<["AFL_SKIP_CRASHES" := "1"]>
              (<["AFL_I_DONT_CARE_ABOUT_MISSING_CRASHES" := "1"]>
                 (<["AFL_NO_AFFINITY" := "1"]> (<["AFL_SKIP_CPUFREQ" := "1"]>
                    (<["AFL_NO_UI" := "1"]> (Host.environ w))))))) as Henv.
  { destruct w as [env fs wd tr]. revert Hp. host_unfold. intros Hp.
    match type of Hp with
    | ?m ?w0 = _ => pose proof (Hkeep w0) as Hk
    end.
    rewrite Hp in Hk. exact Hk. }
  unfold Fuzzer.fuzz. rewrite (HostFacts.bind_Ok _ _ _ _ _ Hp).
  destruct w1 as [env1 fs1 wd1 tr1]. host_unfold_in Henv. host_unfold.
  exists (fst <$> Host.exec h
            ["./afl-fuzz"; "-i"; input_corpus; "-o"; output_corpus; "--";
             target_binary +:+ ".dafl"; "@@"] env1 wd1 fs1).
  split; [|split].
  - destruct (Host.exec h _ env1 wd1 fs1) as [[code fs']|]; host_unfold;
      by rewrite drop_app_length.
  - rewrite Henv. unfold Vars.afl_variables.
    repeat constructor;
      by rewrite ?lookup_insert_ne by done; rewrite lookup_insert_eq.
  - intros k Hk. rewrite Henv. unfold Vars.afl_variables in Hk.
    rewrite !not_elem_of_cons in Hk.
    destruct Hk as (? & ? & ? & ? & ? & ? & _).
    by rewrite !lookup_insert_ne.
Qed.

Lemma engine_environment_witness :
  ∃ env st,
    Host.events_of (Sample.prepared 0 "sample")
      (Fuzzer.fuzz (Sample.sample_host 0 0 0 0)
         (Sample.sample_utils (Sample.sample_host 0 0 0 0))
         "/corpus" "/out/corpus" "/out/sample" (Sample.fuzz_world "sample"))
    = [Host.Exec (Tools.afl_fuzz_argv "/corpus" "/out/corpus" "/out/sample.dafl")
                 env st]
    ∧ Forall (λ k, env !! k = Some "1") Vars.afl_variables
    ∧ ∀ k, k ∉ Vars.afl_variables →
           env !! k = Host.environ (Sample.fuzz_world "sample") !! k.
Proof.
  apply (engine_environment (Sample.sample_host 0 0 0 0)
           (Sample.sample_utils (Sample.sample_host 0 0 0 0))
           "/corpus" "/out/corpus" "/out/sample"
           (Sample.fuzz_world "sample") (Sample.prepared 0 "sample")).
  - apply LayoutFacts.spec_seed_keeps_environ.
  - exact (sample_prepared 0 "sample").
Defined.

(** X13. [fuzz] and [instrument_binary] agree on the name of the
    instrumented binary: called with the path [$OUT/$FUZZ_TARGET] of the
    target, [fuzz] starts the engine on the very path that a successful
    [instrument_binary] had [gtirb-pprinter] write. *)
Theorem fuzz_runs_instrumented_binary (h : Host.host) (u : Fuzzer.utils)
    (w w' : Host.world) (target out input_corpus output_corpus : string)
    (wf wf1 : Host.world) :
  Fuzzer.instrument_binary h w = Host.Ok () w' →
  Host.environ w !! "FUZZ_TARGET" = Some target →
  Host.environ w !! "OUT" = Some out →
  Fuzzer.prepare_fuzz_environment u input_corpus wf = Host.Ok () wf1 →
  ∃ binary ir env1 env2 st2,
    Host.Exec (Tools.pprinter_argv ir binary Tools.assembler) env1 (Some 0%Z)
      ∈ Host.events_of w (Fuzzer.instrument_binary h w)
    ∧ Host.events_of wf1
        (Fuzzer.fuzz h u input_corpus output_corpus ((out +:+ "/") +:+ target) wf)
      = [Host.Exec (Tools.afl_fuzz_argv input_corpus output_corpus binary) env2 st2].
Proof.
  intros Hi Ht Ho Hp.
  exists (((out +:+ "/") +:+ target) +:+ ".dafl"), (target +:+ ".gtirb"),
         (Host.environ w), (Host.environ wf1).
  pose proof Hi as Hi'.
  apply InstrumentFacts.instrument_ok in Hi' as (target' & out' & fs2 & Ht' & Ho' & ->).
  rewrite Ht in Ht'. rewrite Ho in Ho'.
  injection Ht' as <-. injection Ho' as <-.
  unfold Fuzzer.fuzz. rewrite (HostFacts.bind_Ok _ _ _ _ _ Hp).
  destruct wf1 as [env1 fs1 wd1 tr1].
  exists (fst <$> Host.exec h
            (Tools.afl_fuzz_argv input_corpus output_corpus
               (((out +:+ "/") +:+ target) +:+ ".dafl")) env1 wd1 fs1).
  split.
  - rewrite Hi. unfold Host.events_of, Host.world_of, Host.trace at 2.
    rewrite drop_app_length, (CorpusFacts.string_app_assoc (out +:+ "/") target ".dafl").
    do 3 apply list_elem_of_further. apply list_elem_of_here.
  - host_unfold.
    destruct (Host.exec h _ env1 wd1 fs1) as [[code fs']|]; host_unfold;
      by rewrite drop_app_length.
Qed.

Lemma fuzz_runs_instrumented_binary_witness :
  ∃ binary ir env1 env2 st2,
    Host.Exec (Tools.pprinter_argv ir binary Tools.assembler) env1 (Some 0%Z)
      ∈ Host.events_of (Sample.sample_world "/src")
          (Fuzzer.instrument_binary (Sample.sample_host 0 0 0 0)
             (Sample.sample_world "/src"))
    ∧ Host.events_of (Sample.prepared 0 "sample")
        (Fuzzer.fuzz (Sample.sample_host 0 0 0 0)
           (Sample.sample_utils (Sample.sample_host 0 0 0 0))
           "/corpus" "/out/corpus" (("/out" +:+ "/") +:+ "sample")
           (Sample.fuzz_world "sample"))
      = [Host.Exec (Tools.afl_fuzz_argv "/corpus" "/out/corpus" binary) env2 st2].
Proof.
  apply (fuzz_runs_instrumented_binary (Sample.sample_host 0 0 0 0)
           (Sample.sample_utils (Sample.sample_host 0 0 0 0))
           (Sample.sample_world "/src") (Sample.instrumented "/src")
           "sample" "/out" "/corpus" "/out/corpus"
           (Sample.fuzz_world "sample") (Sample.prepared 0 "sample")).
  - exact sample_instrumented.
  - reflexivity.
  - reflexivity.
  - exact (sample_prepared 0 "sample").
Defined.

(** X14. An engine that cannot be started is not passed over the way its
    exit status is: when [./afl-fuzz] cannot be run, [fuzz] raises
    [OSError], after the preparation and with the failed request on
    record. *)
Theorem fuzz_raises_without_engine (h : Host.host) (u : Fuzzer.utils)
    (input_corpus output_corpus target_binary : string) (w w1 : Host.world) :
  Fuzzer.prepare_fuzz_environment u input_corpus w = Host.Ok () w1 →
  Host.exec h
    ["./afl-fuzz"; "-i"; input_corpus; "-o"; output_corpus; "--";
     target_binary +:+ ".dafl"; "@@"]
    (Host.environ w1) (Host.cwd w1) (Host.files w1) = None →
  Fuzzer.fuzz h u input_corpus output_corpus target_binary w
  = Host.Raise (Host.OSError "./afl-fuzz")
      (Host.log (Host.Exec (Tools.afl_fuzz_argv input_corpus output_corpus
                              (target_binary +:+ ".dafl"))
                           (Host.environ w1) None) w1).
Proof.
  intros Hp He. unfold Fuzzer.fuzz. rewrite (HostFacts.bind_Ok _ _ _ _ _ Hp).
  destruct w1 as [env1 fs1 wd1 tr1]. host_unfold. host_unfold_in He.
  by rewrite He.
Qed.

Lemma fuzz_raises_without_engine_witness :
  Fuzzer.fuzz Cases.no_engine_host (Sample.sample_utils Cases.no_engine_host)
    "/corpus" "/out/corpus" "/out/sample" (Sample.fuzz_world "sample")
  = Host.Raise (Host.OSError "./afl-fuzz")
      (Host.log
         (Host.Exec (Tools.afl_fuzz_argv "/corpus" "/out/corpus" "/out/sample.dafl")
            (Host.environ
               (Host.world_of
                  (Fuzzer.prepare_fuzz_environment
                     (Sample.sample_utils Cases.no_engine_host) "/corpus"
                     (Sample.fuzz_world "sample"))))
            None)
         (Host.world_of
            (Fuzzer.prepare_fuzz_environment
               (Sample.sample_utils Cases.no_engine_host) "/corpus"
               (Sample.fuzz_world "sample")))).
Proof.
  apply (fuzz_raises_without_engine Cases.no_engine_host
           (Sample.sample_utils Cases.no_engine_host)
           "/corpus" "/out/corpus" "/out/sample" (Sample.fuzz_world "sample")).
  - apply LayoutFacts.prepare_spec_world.
  - reflexivity.
Defined.
